(** * AAP 2.4 -> 2.5 migration: normalizers and YAML verifier

    A shallow embedding of [scripts/transform_24_to_25.py] and
    [scripts/verify_yaml.py], and the properties of the record normalizers
    and of the verifier's exit status.

    Python values are the data model of [json.load] / [yaml.safe_load]:
    [None], booleans, integers, floats, strings, lists and insertion-ordered
    dictionaries.  Operations that can raise return a [result]. *)

From Stdlib Require Import ZArith List String Ascii Bool Lia DecimalString.
From Stdlib Require Import Floats.SpecFloat.
Import ListNotations.
Local Open Scope list_scope.
Local Open Scope string_scope.

(* ================================================================= *)
(** ** Python values *)

(** Hashable scalars: what a dictionary key can be. *)
Inductive key : Type :=
| KNone
| KBool (b : bool)
| KInt (z : Z)
| KFloat (f : spec_float)
| KStr (s : string).

(** A string is a sequence of code points below 256; a float is a binary64
    value in canonical form; a dictionary is the list of its items in
    insertion order (its keys are pairwise distinct).  The timestamps and
    binary scalars a YAML document can also hold are left out. *)
Unset Elimination Schemes.
Inductive value : Type :=
| VNone
| VBool (b : bool)
| VInt (z : Z)
| VFloat (f : spec_float)
| VStr (s : string)
| VList (l : list value)
| VDict (d : list (key * value)).
Set Elimination Schemes.

Definition dict : Type := list (key * value).

Definition of_key (k : key) : value :=
  match k with
  | KNone => VNone
  | KBool b => VBool b
  | KInt z => VInt z
  | KFloat f => VFloat f
  | KStr s => VStr s
  end.

(** [hash(v)]: lists and dictionaries are unhashable. *)
Definition to_key (v : value) : option key :=
  match v with
  | VNone => Some KNone
  | VBool b => Some (KBool b)
  | VInt z => Some (KInt z)
  | VFloat f => Some (KFloat f)
  | VStr s => Some (KStr s)
  | VList _ | VDict _ => None
  end.

(** *** Equality [==] *)

(** An integer and a float are equal when they denote the same number. *)
Definition float_int_eqb (f : spec_float) (z : Z) : bool :=
  match f with
  | S754_zero _ => (z =? 0)%Z
  | S754_finite s m e =>
      let sm := if s then Z.neg m else Z.pos m in
      if (0 <=? e)%Z then (sm * 2 ^ e =? z)%Z
      else (sm =? z * 2 ^ (- e))%Z
  | S754_infinity _ | S754_nan => false
  end.

Inductive num : Type :=
| NInt (z : Z)
| NFloat (f : spec_float).

Definition key_num (k : key) : option num :=
  match k with
  | KBool b => Some (NInt (Z.b2z b))
  | KInt z => Some (NInt z)
  | KFloat f => Some (NFloat f)
  | KNone | KStr _ => None
  end.

Definition num_eqb (a b : num) : bool :=
  match a, b with
  | NInt x, NInt y => (x =? y)%Z
  | NFloat f, NFloat g => SFeqb f g
  | NFloat f, NInt z | NInt z, NFloat f => float_int_eqb f z
  end.

Definition key_eqb (k1 k2 : key) : bool :=
  match k1, k2 with
  | KNone, KNone => true
  | KStr a, KStr b => String.eqb a b
  | _, _ =>
      match key_num k1, key_num k2 with
      | Some a, Some b => num_eqb a b
      | _, _ => false
      end
  end.

(** [d[k]]: the value stored under the first key equal to [k]. *)
Fixpoint dict_lookup (k : key) (d : dict) : option value :=
  match d with
  | [] => None
  | (k', v) :: d' => if key_eqb k' k then Some v else dict_lookup k d'
  end.

Fixpoint py_eqb (a b : value) : bool :=
  match a, b with
  | VList l1, VList l2 =>
      (fix go (l1 l2 : list value) : bool :=
         match l1, l2 with
         | [], [] => true
         | x :: l1', y :: l2' => py_eqb x y && go l1' l2'
         | _, _ => false
         end) l1 l2
  | VDict d1, VDict d2 =>
      Nat.eqb (List.length d1) (List.length d2)
      && (fix go (d1 : dict) : bool :=
            match d1 with
            | [] => true
            | (k, v) :: d1' =>
                match dict_lookup k d2 with
                | Some w => py_eqb v w
                | None => false
                end && go d1'
            end) d1
  | _, _ =>
      match to_key a, to_key b with
      | Some k1, Some k2 => key_eqb k1 k2
      | _, _ => false
      end
  end.

(** [v in (x1, ..., xn)] *)
Definition py_in (v : value) (xs : list value) : bool :=
  existsb (fun x => py_eqb v x) xs.

(** *** Truth value *)

Definition truthy (v : value) : bool :=
  match v with
  | VNone => false
  | VBool b => b
  | VInt z => negb (z =? 0)%Z
  | VFloat (S754_zero _) => false
  | VFloat _ => true
  | VStr s => negb (String.eqb s "")
  | VList l => match l with [] => false | _ => true end
  | VDict d => match d with [] => false | _ => true end
  end.

(** [a or b], for an operand [b] whose evaluation cannot raise. *)
Definition py_or (a b : value) : value := if truthy a then a else b.

(* ================================================================= *)
(** ** Exceptions *)

Inductive exn : Type :=
| AttributeError
| TypeError
| ValueError
| KeyError
| OSError
| RecursionError.

Inductive result (A : Type) : Type :=
| Ok (a : A)
| Raise (e : exn).
Arguments Ok {A} a.
Arguments Raise {A} e.

Definition bind {A B : Type} (m : result A) (f : A -> result B) : result B :=
  match m with
  | Ok a => f a
  | Raise e => Raise e
  end.

Notation "x <- m ;; k" := (bind m (fun x => k))
  (at level 61, m at next level, right associativity).

(* ================================================================= *)
(** ** Strings: [str.strip] *)

(** [str.isspace] on one character: tab to carriage return, the four
    separators 28 to 31, the space, NEL (133) and the no-break space (160). *)
Definition isspace (c : ascii) : bool :=
  let n := N_of_ascii c in
  ((9 <=? n) && (n <=? 13) || (28 <=? n) && (n <=? 32)
   || (n =? 133) || (n =? 160))%N.

Fixpoint lstrip (s : string) : string :=
  match s with
  | EmptyString => EmptyString
  | String c s' => if isspace c then lstrip s' else s
  end.

Fixpoint rstrip (s : string) : string :=
  match s with
  | EmptyString => EmptyString
  | String c s' =>
      match rstrip s' with
      | EmptyString => if isspace c then EmptyString else String c EmptyString
      | r => String c r
      end
  end.

Definition strip (s : string) : string := rstrip (lstrip s).

(* ================================================================= *)
(** ** Dictionary and sequence primitives *)

(** [d.get(k, dflt)] on a dictionary. *)
Definition dict_get (d : dict) (k dflt : value) : result value :=
  match to_key k with
  | Some k' =>
      Ok (match dict_lookup k' d with Some v => v | None => dflt end)
  | None => Raise TypeError
  end.

(** [recv.get(k, dflt)] on any object: only a dictionary has [get]. *)
Definition py_get (recv k dflt : value) : result value :=
  match recv with
  | VDict d => dict_get d k dflt
  | _ => Raise AttributeError
  end.

(** [recv.get("field")] *)
Definition getf (recv : value) (field : string) : result value :=
  py_get recv (VStr field) VNone.

(** [d[k] = v]: overwrite in place, or append. *)
Fixpoint dict_set (k : key) (v : value) (d : dict) : dict :=
  match d with
  | [] => [(k, v)]
  | (k', v') :: d' =>
      if key_eqb k' k then (k', v) :: d' else (k', v') :: dict_set k v d'
  end.

(** [d.pop(k, None)], result discarded. *)
Definition dict_pop (k : key) (d : dict) : dict :=
  filter (fun kv => negb (key_eqb (fst kv) k)) d.

(** [iter(v)], exhausted into a list. *)
Definition py_iter (v : value) : result (list value) :=
  match v with
  | VList l => Ok l
  | VStr s =>
      Ok (map (fun c => VStr (String c EmptyString)) (list_ascii_of_string s))
  | VDict d => Ok (map (fun kv => of_key (fst kv)) d)
  | _ => Raise TypeError
  end.

(** One step of [dict(iterable)]: the item must be a two-element sequence
    whose first element is hashable. *)
Definition dict_update_item (d : dict) (item : value) : result dict :=
  match py_iter item with
  | Ok [a; b] =>
      match to_key a with
      | Some k => Ok (dict_set k b d)
      | None => Raise TypeError
      end
  | Ok _ => Raise ValueError
  | Raise _ => Raise TypeError
  end.

Fixpoint dict_update_seq (d : dict) (items : list value) : result dict :=
  match items with
  | [] => Ok d
  | item :: rest => d' <- dict_update_item d item ;; dict_update_seq d' rest
  end.

(** [dict(v)]: a copy of a mapping, or built from a sequence of pairs. *)
Definition py_dict (v : value) : result dict :=
  match v with
  | VDict d => Ok d
  | _ => items <- py_iter v ;; dict_update_seq [] items
  end.

(** [bool(v)] *)
Definition py_bool (v : value) : value := VBool (truthy v).

(* ================================================================= *)
(** ** transform_24_to_25.py *)

Definition isinstance_str (v : value) : bool :=
  match v with VStr _ => true | _ => false end.

Definition isinstance_dict (v : value) : bool :=
  match v with VDict _ => true | _ => false end.

Definition isinstance_list (v : value) : bool :=
  match v with VList _ => true | _ => false end.

(** [recv.strip()]: a method of strings only. *)
Definition str_strip (recv : value) : result value :=
  match recv with
  | VStr s => Ok (VStr (strip s))
  | _ => Raise AttributeError
  end.

Definition CREDTYPE_MAP : dict :=
  [ (KStr "Machine", VStr "Machine");
    (KStr "Source Control", VStr "Source Control");
    (KStr "Vault", VStr "Vault");
    (KStr "Amazon Web Services", VStr "Amazon Web Services");
    (KStr "OpenShift or Kubernetes API Bearer Token",
     VStr "OpenShift or Kubernetes API Bearer Token");
    (KStr "OpenShift or Kubernetes API Certificate",
     VStr "OpenShift or Kubernetes API Certificate") ].

Definition _stripped (s : value) : result value :=
  if isinstance_str s then str_strip s else Ok s.

Definition _name (obj_or_name : value) : result value :=
  if isinstance_dict obj_or_name then getf obj_or_name "name"
  else if isinstance_str obj_or_name then Ok obj_or_name
  else Ok VNone.

(** One item of a dictionary display [{"k": v, ...}]. *)
Definition field (k : string) (v : value) : key * value := (KStr k, v).

(** [{k: v for k, v in payload.items() if v not in empties}] *)
Definition sparse (empties : list value) (payload : dict) : value :=
  VDict (filter (fun kv => negb (py_in (snd kv) empties)) payload).

(** [_stripped(x) if x else None] *)
Definition stripped_or_none (x : value) : result value :=
  if truthy x then _stripped x else Ok VNone.

Definition normalize_org (o : value) : result value :=
  n <- getf o "name" ;;
  name <- _stripped n ;;
  Ok (VDict [ field "name" name; field "state" (VStr "present") ]).

Definition SENSITIVE_KEYS : list string :=
  [ "password"; "secret"; "ssh_key_data"; "ssh_key_unlock"; "token";
    "client_secret"; "become_password" ].

Definition normalize_credential (c : value) : result value :=
  ct0 <- getf c "credential_type" ;;
  let ct := py_or ct0 (VDict []) in
  ctn <- getf ct "name" ;;
  ct_name <- (if truthy ctn then Ok ctn else getf c "kind") ;;
  ct_name <- dict_get CREDTYPE_MAP ct_name ct_name ;;
  o1 <- getf c "organization" ;;
  n1 <- _name o1 ;;
  org <- (if truthy n1 then Ok n1
          else o2 <- getf c "organization_id" ;; _name o2) ;;
  i0 <- getf c "inputs" ;;
  inputs <- py_dict (py_or i0 (VDict [])) ;;
  let inputs := fold_left (fun d k => dict_pop (KStr k) d) SENSITIVE_KEYS inputs in
  n <- getf c "name" ;;
  name <- _stripped n ;;
  descr <- getf c "description" ;;
  organization <- stripped_or_none org ;;
  Ok (sparse [VNone; VDict []; VList []]
        [ field "name" name;
          field "description" (py_or descr (VStr ""));
          field "organization" organization;
          field "credential_type" ct_name;
          field "inputs" (py_or (VDict inputs) (VDict []));
          field "state" (VStr "present") ]).

Definition normalize_project (p : value) : result value :=
  st <- getf p "scm_type" ;;
  scm_type <- (if truthy st then Ok st
               else u <- getf p "scm_url" ;;
                    Ok (if truthy u then VStr "git" else VStr "manual")) ;;
  o <- getf p "organization" ;;
  org <- _name o ;;
  n <- getf p "name" ;;
  name <- _stripped n ;;
  descr <- getf p "description" ;;
  organization <- stripped_or_none org ;;
  scm_url <- getf p "scm_url" ;;
  br <- getf p "scm_branch" ;;
  uol <- py_get p (VStr "scm_update_on_launch") (VBool true) ;;
  ao <- py_get p (VStr "allow_override") (VBool true) ;;
  Ok (sparse [VNone; VDict []; VList []]
        [ field "name" name;
          field "description" (py_or descr (VStr ""));
          field "organization" organization;
          field "scm_type" scm_type;
          field "scm_url" scm_url;
          field "scm_branch" (py_or br (VStr "main"));
          field "scm_update_on_launch" (py_bool uol);
          field "allow_override" (py_bool ao);
          field "state" (VStr "present") ]).

Definition normalize_inventory (inv : value) : result value :=
  o <- getf inv "organization" ;;
  org <- _name o ;;
  k <- getf inv "kind" ;;
  let kind := py_or k (VStr "normal") in
  n <- getf inv "name" ;;
  name <- _stripped n ;;
  descr <- getf inv "description" ;;
  organization <- stripped_or_none org ;;
  vars <- getf inv "variables" ;;
  Ok (sparse [VNone; VDict []; VList []]
        [ field "name" name;
          field "description" (py_or descr (VStr ""));
          field "organization" organization;
          field "variables" (py_or vars (VDict []));
          field "kind" kind;
          field "state" (VStr "present") ]).

(** [[_stripped(_name(c)) for c in items if _name(c)]] *)
Fixpoint credential_names (items : list value) : result (list value) :=
  match items with
  | [] => Ok []
  | c :: rest =>
      cond <- _name c ;;
      if truthy cond then
        n <- _name c ;;
        s <- _stripped n ;;
        tl <- credential_names rest ;;
        Ok (s :: tl)
      else credential_names rest
  end.

Definition normalize_job_template (t : value) : result value :=
  o <- getf t "organization" ;;
  org <- _name o ;;
  p <- getf t "project" ;;
  proj <- _name p ;;
  i <- getf t "inventory" ;;
  inv <- _name i ;;
  e <- getf t "execution_environment" ;;
  ee <- _name e ;;
  cr <- getf t "credentials" ;;
  items <- py_iter (py_or cr (VList [])) ;;
  creds <- credential_names items ;;
  n <- getf t "name" ;;
  name <- _stripped n ;;
  descr <- getf t "description" ;;
  organization <- stripped_or_none org ;;
  project <- stripped_or_none proj ;;
  inventory <- stripped_or_none inv ;;
  execution_environment <- stripped_or_none ee ;;
  jt <- getf t "job_type" ;;
  playbook <- getf t "playbook" ;;
  se <- getf t "survey_enabled" ;;
  lim <- getf t "limit" ;;
  verb <- getf t "verbosity" ;;
  Ok (sparse [VNone; VList []; VDict []]
        [ field "name" name;
          field "description" (py_or descr (VStr ""));
          field "organization" organization;
          field "project" project;
          field "inventory" inventory;
          field "execution_environment" execution_environment;
          field "job_type" (py_or jt (VStr "run"));
          field "playbook" playbook;
          field "credentials" (VList creds);
          field "survey_enabled" (py_bool se);
          field "limit" (py_or lim (VStr ""));
          field "verbosity" (py_or verb (VInt 0));
          field "state" (VStr "present") ]).

Definition normalize_workflow_template (w : value) : result value :=
  o <- getf w "organization" ;;
  org <- _name o ;;
  n <- getf w "name" ;;
  name <- _stripped n ;;
  descr <- getf w "description" ;;
  organization <- stripped_or_none org ;;
  Ok (sparse [VNone; VList []; VDict []]
        [ field "name" name;
          field "description" (py_or descr (VStr ""));
          field "organization" organization;
          field "state" (VStr "present") ]).

Definition normalize_execution_environment (ee : value) : result value :=
  o <- getf ee "organization" ;;
  org <- _name o ;;
  n <- getf ee "name" ;;
  name <- _stripped n ;;
  img <- getf ee "image" ;;
  image <- _stripped img ;;
  organization <- stripped_or_none org ;;
  pull <- py_get ee (VStr "pull") (VStr "missing") ;;
  Ok (sparse [VNone; VList []; VDict []]
        [ field "name" name;
          field "image" image;
          field "organization" organization;
          field "pull" pull;
          field "state" (VStr "present") ]).

(** The seven record kinds, and the normalizer [main] applies to each. *)
Inductive kind : Type :=
| Organization
| Credential
| Project
| Inventory
| JobTemplate
| WorkflowTemplate
| ExecutionEnvironment.

Definition normalizer (k : kind) : value -> result value :=
  match k with
  | Organization => normalize_org
  | Credential => normalize_credential
  | Project => normalize_project
  | Inventory => normalize_inventory
  | JobTemplate => normalize_job_template
  | WorkflowTemplate => normalize_workflow_template
  | ExecutionEnvironment => normalize_execution_environment
  end.

(* ================================================================= *)
(** ** verify_yaml.py *)

Definition EXPECTED_FILES : list (string * string) :=
  [ ("controller_organizations.yml", "controller_organizations");
    ("controller_credentials.yml", "controller_credentials");
    ("controller_projects.yml", "controller_projects");
    ("controller_inventories.yml", "controller_inventories");
    ("controller_templates.yml", "controller_templates");
    ("controller_workflows.yml", "controller_workflows");
    ("controller_execution_environments.yml",
     "controller_execution_environments") ].

Definition REQUIRED_FIELDS_PER_LIST_ITEM : list (string * list string) :=
  [ ("controller_organizations", ["name"]);
    ("controller_credentials", ["name"; "credential_type"]);
    ("controller_projects", ["name"]);
    ("controller_inventories", ["name"]);
    ("controller_templates", ["name"; "project"; "job_type"]);
    ("controller_workflows", ["name"]);
    ("controller_execution_environments", ["name"; "image"]) ].

(** What the directory holds under one file name: nothing, a file that
    [load_yaml] fails on (with the exception's text), or a file that
    [yaml.safe_load] turns into a document. *)
Inductive file_state : Type :=
| Absent
| Unreadable (err : string)
| Document (doc : value).

(** [load_yaml]: [yaml.safe_load(f) or {}] *)
Definition load_yaml (doc : value) : value := py_or doc (VDict []).

Fixpoint is_substring (sub s : string) : bool :=
  String.prefix sub s
  || match s with
     | EmptyString => false
     | String _ s' => is_substring sub s'
     end.

(** [x in container] *)
Definition py_contains (container x : value) : result bool :=
  match container with
  | VDict d =>
      match to_key x with
      | Some k => Ok (match dict_lookup k d with Some _ => true | None => false end)
      | None => Raise TypeError
      end
  | VList l => Ok (existsb (fun item => py_eqb item x) l)
  | VStr s =>
      match x with
      | VStr sub => Ok (is_substring sub s)
      | _ => Raise TypeError
      end
  | _ => Raise TypeError
  end.

(** [container[x]] for a string subscript [x] *)
Definition py_getitem (container : value) (x : string) : result value :=
  match container with
  | VDict d =>
      match dict_lookup (KStr x) d with
      | Some v => Ok v
      | None => Raise KeyError
      end
  | _ => Raise TypeError
  end.

Definition validate_top_level (data : value) (expected_key : string)
  : result (bool * string) :=
  present <- py_contains data (VStr expected_key) ;;
  if negb present then
    Ok (false, "Missing top-level key '" ++ expected_key ++ "'.")
  else
    v <- py_getitem data expected_key ;;
    if negb (isinstance_list v) then
      Ok (false, "Top-level key '" ++ expected_key ++ "' must be a list.")
    else Ok (true, "").

Fixpoint assoc {A : Type} (k : string) (l : list (string * A)) : option A :=
  match l with
  | [] => None
  | (k', a) :: l' => if String.eqb k' k then Some a else assoc k l'
  end.

Definition str_of_nat (n : nat) : string :=
  NilEmpty.string_of_uint (Nat.to_uint n).

Definition item_prefix (kind : string) (idx : nat) : string :=
  "[" ++ kind ++ "][" ++ str_of_nat idx ++ "]".

(** [field not in obj or obj[field] in (None, "")] *)
Definition field_missing (obj : dict) (fld : string) : bool :=
  match dict_lookup (KStr fld) obj with
  | None => true
  | Some v => py_in v [VNone; VStr ""]
  end.

(** ["state" in obj and not isinstance(obj["state"], str)] *)
Definition state_not_string (obj : dict) : bool :=
  match dict_lookup (KStr "state") obj with
  | None => false
  | Some v => negb (isinstance_str v)
  end.

(** The errors one list item contributes. *)
Definition item_errors (kind : string) (required : list string)
    (idx : nat) (obj : value) : list string :=
  match obj with
  | VDict d =>
      List.app
        (map (fun fld => item_prefix kind idx ++ " missing required field '" ++ fld ++ "'.")
             (filter (field_missing d) required))
        (if state_not_string d
         then [item_prefix kind idx ++ " field 'state' must be a string if present."]
         else [])
  | _ => [item_prefix kind idx ++ " must be a mapping dict."]
  end.

Fixpoint items_errors (kind : string) (required : list string)
    (idx : nat) (items : list value) : list string :=
  match items with
  | [] => []
  | obj :: rest =>
      List.app (item_errors kind required idx obj)
               (items_errors kind required (S idx) rest)
  end.

Definition validate_list_items (kind : string) (items : value)
  : result (list string) :=
  let required :=
    match assoc kind REQUIRED_FIELDS_PER_LIST_ITEM with
    | Some r => r
    | None => ["name"]
    end in
  objs <- py_iter items ;;
  Ok (items_errors kind required 0 objs).

(** The lists [warnings] and [errors] that [main] accumulates. *)
Record report : Type := mkReport {
  warnings : list string;
  errors : list string
}.

(** Paths are [pathlib] paths of a POSIX system, given by the text they
    were built from. *)

(** [s.split("/")] *)
Fixpoint split_sep (s : string) : list string :=
  match s with
  | EmptyString => [EmptyString]
  | String c s' =>
      if Ascii.eqb c "/" then EmptyString :: split_sep s'
      else
        match split_sep s' with
        | x :: xs => String c x :: xs
        | [] => [String c EmptyString]
        end
  end.

(** ["/".join(parts)] *)
Fixpoint join_sep (parts : list string) : string :=
  match parts with
  | [] => EmptyString
  | [x] => x
  | x :: rest => x ++ "/" ++ join_sep rest
  end.

Fixpoint ends_with_sep (s : string) : bool :=
  match s with
  | EmptyString => false
  | String c EmptyString => Ascii.eqb c "/"
  | String _ s' => ends_with_sep s'
  end.

(** [posixpath.join(a, b)] *)
Definition posix_join (a b : string) : string :=
  match b with
  | String "/" _ => b
  | _ =>
      if String.eqb a "" || ends_with_sep a then a ++ b
      else a ++ "/" ++ b
  end.

(** The root of a path: one slash, or two when the text starts with
    exactly two. *)
Definition path_root (p : string) : string :=
  match p with
  | String "/" (String "/" (String "/" _)) => "/"
  | String "/" (String "/" _) => "//"
  | String "/" _ => "/"
  | _ => ""
  end.

(** The components of a path: empty ones and ["."] are dropped. *)
Definition path_parts (p : string) : list string :=
  filter (fun x => negb (String.eqb x "") && negb (String.eqb x "."))
    (split_sep p).

(** [str(Path(p))] *)
Definition path_str (p : string) : string :=
  let s := path_root p ++ join_sep (path_parts p) in
  if String.eqb s "" then "." else s.

(** [str(Path(base) / fname)] *)
Definition path_join (base fname : string) : string :=
  path_str (posix_join base fname).

(** One iteration of the loop over [EXPECTED_FILES]. *)
Definition check_file (base : string) (fs : string -> file_state)
    (r : report) (entry : string * string) : result report :=
  let (fname, topkey) := entry in
  let fpath := path_join base fname in
  match fs fname with
  | Absent =>
      Ok (mkReport (List.app (warnings r) ["Missing expected file: " ++ fpath])
            (errors r))
  | Unreadable e =>
      Ok (mkReport (warnings r)
            (List.app (errors r)
               ["Failed to parse YAML: " ++ fpath ++ " :: " ++ e]))
  | Document doc =>
      let data := load_yaml doc in
      top <- validate_top_level data topkey ;;
      let (ok, msg) := top in
      if negb ok then
        Ok (mkReport (warnings r) (List.app (errors r) [fpath ++ ": " ++ msg]))
      else
        items <- py_get data (VStr topkey) (VList []) ;;
        item_errs <- validate_list_items topkey items ;;
        Ok (mkReport (warnings r)
              (List.app (errors r)
                 (map (fun e => fpath ++ ": " ++ e) item_errs)))
  end.

Fixpoint check_files (base : string) (fs : string -> file_state)
    (r : report) (entries : list (string * string)) : result report :=
  match entries with
  | [] => Ok r
  | entry :: rest =>
      r' <- check_file base fs r entry ;;
      check_files base fs r' rest
  end.

(** The exit status from the two lists, as [main] ends. *)
Definition exit_status (strict : bool) (r : report) : Z :=
  match errors r with
  | _ :: _ => 2
  | [] =>
      match warnings r with
      | _ :: _ => if strict then 1 else 0
      | [] => 0
      end
  end%Z.

(** [main]: [strict] and [base] are the parsed arguments, [base_exists]
    and [fs] the state of the file system under [base]. *)
Definition main (strict : bool) (base : string) (base_exists : bool)
    (fs : string -> file_state) : result Z :=
  if negb base_exists then Ok 2%Z
  else
    r <- check_files base fs (mkReport [] []) EXPECTED_FILES ;;
    Ok (exit_status strict r).

(* ================================================================= *)
(** ** Pure readings of the primitives *)

(** [d.get(k)] as a value. *)
Definition dget (d : dict) (k : string) : value :=
  match dict_lookup (KStr k) d with
  | Some v => v
  | None => VNone
  end.

(** The field [k] of a record, when the record is a mapping that has it. *)
Definition lookup_field (r : value) (k : string) : option value :=
  match r with
  | VDict d => dict_lookup (KStr k) d
  | _ => None
  end.

(** What [_name] resolves a value to. *)
Definition name_of (v : value) : value :=
  match v with
  | VDict d => dget d "name"
  | VStr s => VStr s
  | _ => VNone
  end.

(** What [_stripped] turns a value into. *)
Definition stripped_of (v : value) : value :=
  match v with
  | VStr s => VStr (strip s)
  | _ => v
  end.

(** The values the sparse-record filter drops. *)
Definition is_empty (v : value) : bool :=
  match v with
  | VNone | VList [] | VDict [] => true
  | _ => false
  end.

(** A string with no whitespace at either end. *)
Fixpoint last_char (s : string) : option ascii :=
  match s with
  | EmptyString => None
  | String c EmptyString => Some c
  | String _ s' => last_char s'
  end.

Definition trimmed (s : string) : bool :=
  match s with
  | EmptyString => true
  | String c _ =>
      negb (isspace c)
      && match last_char s with
         | Some c' => negb (isspace c')
         | None => true
         end
  end.


(** [d.get(k, dflt)] as a value. *)
Definition dget_or (d : dict) (k : string) (dflt : value) : value :=
  match dict_lookup (KStr k) d with
  | Some v => v
  | None => dflt
  end.

(** A reference field of a payload: [_stripped(x) if x else None] for
    [x = _name(d.get(k))]. *)
Definition ref_value (x : value) : value :=
  if truthy x then stripped_of x else VNone.

Definition ref_field (d : dict) (k : string) : value :=
  ref_value (name_of (dget d k)).

(** The names [credential_names] collects. *)
Definition names_of (items : list value) : list value :=
  map stripped_of (filter truthy (map name_of items)).

(** The [payload] dictionary of each normalizer, on a raw record [d]. *)
Definition org_payload (d : dict) : dict :=
  [ field "name" (stripped_of (dget d "name"));
    field "state" (VStr "present") ].

Definition credential_payload (d : dict) (org ct_name : value) (inputs : dict)
  : dict :=
  [ field "name" (stripped_of (dget d "name"));
    field "description" (py_or (dget d "description") (VStr ""));
    field "organization" (ref_value org);
    field "credential_type" ct_name;
    field "inputs" (VDict inputs);
    field "state" (VStr "present") ].

Definition project_scm_type (d : dict) : value :=
  if truthy (dget d "scm_type") then dget d "scm_type"
  else if truthy (dget d "scm_url") then VStr "git" else VStr "manual".

Definition project_payload (d : dict) : dict :=
  [ field "name" (stripped_of (dget d "name"));
    field "description" (py_or (dget d "description") (VStr ""));
    field "organization" (ref_field d "organization");
    field "scm_type" (project_scm_type d);
    field "scm_url" (dget d "scm_url");
    field "scm_branch" (py_or (dget d "scm_branch") (VStr "main"));
    field "scm_update_on_launch"
      (py_bool (dget_or d "scm_update_on_launch" (VBool true)));
    field "allow_override" (py_bool (dget_or d "allow_override" (VBool true)));
    field "state" (VStr "present") ].

Definition inventory_payload (d : dict) : dict :=
  [ field "name" (stripped_of (dget d "name"));
    field "description" (py_or (dget d "description") (VStr ""));
    field "organization" (ref_field d "organization");
    field "variables" (py_or (dget d "variables") (VDict []));
    field "kind" (py_or (dget d "kind") (VStr "normal"));
    field "state" (VStr "present") ].

Definition job_template_payload (d : dict) (items : list value) : dict :=
  [ field "name" (stripped_of (dget d "name"));
    field "description" (py_or (dget d "description") (VStr ""));
    field "organization" (ref_field d "organization");
    field "project" (ref_field d "project");
    field "inventory" (ref_field d "inventory");
    field "execution_environment" (ref_field d "execution_environment");
    field "job_type" (py_or (dget d "job_type") (VStr "run"));
    field "playbook" (dget d "playbook");
    field "credentials" (VList (names_of items));
    field "survey_enabled" (py_bool (dget d "survey_enabled"));
    field "limit" (py_or (dget d "limit") (VStr ""));
    field "verbosity" (py_or (dget d "verbosity") (VInt 0));
    field "state" (VStr "present") ].

Definition workflow_payload (d : dict) : dict :=
  [ field "name" (stripped_of (dget d "name"));
    field "description" (py_or (dget d "description") (VStr ""));
    field "organization" (ref_field d "organization");
    field "state" (VStr "present") ].

Definition execution_environment_payload (d : dict) : dict :=
  [ field "name" (stripped_of (dget d "name"));
    field "image" (stripped_of (dget d "image"));
    field "organization" (ref_field d "organization");
    field "pull" (dget_or d "pull" (VStr "missing"));
    field "state" (VStr "present") ].

(** The sparse-record filter on the items of a payload. *)
Definition prune (payload : dict) : dict :=
  filter (fun kv => negb (is_empty (snd kv))) payload.

(** [inputs] after the loop over the sensitive keys. *)
Definition pop_sensitive (inputs : dict) : dict :=
  fold_left (fun d k => dict_pop (KStr k) d) SENSITIVE_KEYS inputs.

(** The organization a credential resolves:
    [_name(c.get("organization")) or _name(c.get("organization_id"))]. *)
Definition credential_org (d : dict) : value :=
  py_or (name_of (dget d "organization")) (name_of (dget d "organization_id")).

(** The label a credential's type is derived from: the nested
    [credential_type] object's name, or the [kind] fallback. *)
Definition derived_label (c : value) : result value :=
  ct0 <- getf c "credential_type" ;;
  ctn <- getf (py_or ct0 (VDict [])) "name" ;;
  if truthy ctn then Ok ctn else getf c "kind".

(** A payload written as a dictionary display: string keys, pairwise
    distinct. *)
Fixpoint str_keys_distinct (p : dict) : bool :=
  match p with
  | [] => true
  | (KStr s, _) :: p' =>
      negb (existsb (fun kv => key_eqb (fst kv) (KStr s)) p')
      && str_keys_distinct p'
  | _ => false
  end.

(** The items of a record. *)
Definition items_of (r : value) : dict :=
  match r with
  | VDict d => d
  | _ => []
  end.

(* ================================================================= *)
(** ** Sample records *)

(** A credential whose inputs carry a password. *)
Definition vault_credential : value :=
  VDict [ field "name" (VStr " Vault Cred ");
          field "credential_type" (VDict [ field "name" (VStr "Machine") ]);
          field "inputs" (VDict [ field "username" (VStr "deploy");
                                  field "password" (VStr "x") ]) ].

Definition vault_credential_canonical : value :=
  VDict [ field "name" (VStr "Vault Cred");
          field "description" (VStr "");
          field "credential_type" (VStr "Machine");
          field "inputs" (VDict [ field "username" (VStr "deploy") ]);
          field "state" (VStr "present") ].

(** A credential with neither a description nor a type. *)
Definition bare_credential : dict := [ field "name" (VStr "c") ].

Definition bare_credential_canonical : value :=
  VDict [ field "name" (VStr "c");
          field "description" (VStr "");
          field "state" (VStr "present") ].

(** The project of the end-to-end scenario, the record the scenario
    expects, and the record the normalizer builds. *)
Definition web_project : value :=
  VDict [ field "name" (VStr " Web ");
          field "scm_url" (VStr "https://x/y.git") ].

Definition web_project_expected : value :=
  VDict [ field "name" (VStr "Web");
          field "scm_type" (VStr "git");
          field "scm_branch" (VStr "main");
          field "scm_update_on_launch" (VBool true);
          field "allow_override" (VBool true);
          field "state" (VStr "present") ].

Definition web_project_canonical : value :=
  VDict [ field "name" (VStr "Web");
          field "description" (VStr "");
          field "scm_type" (VStr "git");
          field "scm_url" (VStr "https://x/y.git");
          field "scm_branch" (VStr "main");
          field "scm_update_on_launch" (VBool true);
          field "allow_override" (VBool true);
          field "state" (VStr "present") ].

(** A directory that holds none of the expected files. *)
Definition empty_directory : string -> file_state := fun _ => Absent.

(** The verifier ran through every expected file and accumulated at least
    one warning and no error. *)
Definition only_warnings (base : string) (fs : string -> file_state) : Prop :=
  exists r,
    check_files base fs (mkReport [] []) EXPECTED_FILES = Ok r
    /\ warnings r <> []
    /\ errors r = [].

(** The job template of the end-to-end scenario. *)
Definition vault_job_template : dict :=
  [ field "name" (VStr "Deploy");
    field "credentials"
      (VList [ VDict [ field "name" (VStr "Vault Cred") ];
               VDict [ field "id" (VInt 7) ] ]) ].

(** A job template whose first credential has an empty name. *)
Definition unnamed_credential_job_template : dict :=
  [ field "name" (VStr "Deploy");
    field "credentials"
      (VList [ VDict [ field "name" (VStr "") ];
               VDict [ field "name" (VStr "Vault Cred") ] ]) ].

(** The credentials list as the sentence "resolve the name of each entry
    and include only non-null results" reads. *)
Definition is_none (v : value) : bool :=
  match v with VNone => true | _ => false end.

Definition resolved_non_null (l : list value) : list value :=
  filter (fun n => negb (is_none n)) (map name_of l).

(** A credential whose description has surrounding blanks. *)
Definition padded_credential : value :=
  VDict [ field "name" (VStr "c");
          field "description" (VStr " x ") ].

(** The fields the normalizers pass through [_stripped]. *)
Definition STRIPPED_FIELDS : list string :=
  [ "name"; "organization"; "project"; "inventory"; "execution_environment";
    "image" ].

(** An organization record without a name, and a padded one. *)
Definition unnamed_organization : value := VDict [].

Definition padded_organization : value :=
  VDict [ field "name" (VStr " Default ") ].

Definition padded_organization_canonical : value :=
  VDict [ field "name" (VStr "Default"); field "state" (VStr "present") ].

(** A job template with blanks around its names. *)
Definition padded_job_template : value :=
  VDict [ field "name" (VStr " Deploy ");
          field "organization" (VDict [ field "name" (VStr " Ops ") ]);
          field "project" (VStr "Web ");
          field "credentials" (VList [ VStr " Vault Cred " ]) ].

Definition padded_job_template_canonical : value :=
  VDict [ field "name" (VStr "Deploy");
          field "description" (VStr "");
          field "organization" (VStr "Ops");
          field "project" (VStr "Web");
          field "job_type" (VStr "run");
          field "credentials" (VList [ VStr "Vault Cred" ]);
          field "survey_enabled" (VBool false);
          field "limit" (VStr "");
          field "verbosity" (VInt 0);
          field "state" (VStr "present") ].

(** What [get] reads back from a pruned payload for a value [v] that was
    written under the key. *)
Definition squash (v : value) : value := if is_empty v then VNone else v.

(** The fields that refer to another record by name. *)
Definition REFERENCE_FIELDS : list string :=
  [ "organization"; "project"; "inventory"; "execution_environment" ].

Definition nonempty_str (v : value) : bool :=
  match v with
  | VStr s => negb (String.eqb s "")
  | _ => false
  end.

(** A reference field is absent or holds a non-empty string. *)
Definition ref_ok (out : value) (f : string) : bool :=
  match lookup_field out f with
  | None => true
  | Some v => nonempty_str v
  end.

(** [credentials] is absent or a list of non-empty strings. *)
Definition credentials_ok (out : value) : bool :=
  match lookup_field out "credentials" with
  | None => true
  | Some (VList l) => forallb nonempty_str l
  | Some _ => false
  end.

(** A credential has no [credential_type]; an execution environment has a
    [pull]. *)
Definition kind_ok (k : kind) (out : value) : bool :=
  match k with
  | Credential =>
      match lookup_field out "credential_type" with
      | None => true
      | Some _ => false
      end
  | ExecutionEnvironment =>
      match lookup_field out "pull" with
      | None => false
      | Some _ => true
      end
  | _ => true
  end.

(** A canonical record that reads back as a raw record of its kind. *)
Definition canonical_shaped (k : kind) (out : value) : bool :=
  forallb (ref_ok out) REFERENCE_FIELDS && credentials_ok out && kind_ok k out.

(** A project whose organization is a blank string, and an execution
    environment whose pull policy is null. *)
Definition blank_organization_project : value :=
  VDict [ field "name" (VStr "Web"); field "organization" (VStr "  ") ].

Definition null_pull_environment : value :=
  VDict [ field "name" (VStr "ee"); field "image" (VStr "quay.io/ee");
          field "pull" VNone ].

(* ================================================================= *)
(** ** transform_24_to_25.py: loading, writing and [main] *)

(** What the export directory holds for one resource: no file, a file
    [json.load] fails on (a [JSONDecodeError] is a [ValueError]), or a file
    that parses to a document. *)
Inductive export_file : Type :=
| NoFile
| BadJson
| Json (doc : value).

Definition _load_json (fs : string -> export_file) (resource : string)
  : result value :=
  match fs resource with
  | NoFile => Ok (VList [])
  | BadJson => Raise ValueError
  | Json doc => Ok doc
  end.

(** [[f(x) for x in items]] *)
Fixpoint normalize_each (f : value -> result value) (items : list value)
  : result (list value) :=
  match items with
  | [] => Ok []
  | x :: rest =>
      y <- f x ;;
      ys <- normalize_each f rest ;;
      Ok (y :: ys)
  end.

(** [[f(x) for x in _load_json(resource)]] *)
Definition load_and_normalize (fs : string -> export_file)
    (f : value -> result value) (resource : string) : result (list value) :=
  doc <- _load_json fs resource ;;
  items <- py_iter doc ;;
  normalize_each f items.

(** The files written in full so far, oldest first: name under the output
    directory, and the data dumped into it. *)
Definition written : Type := list (string * value).

(** What writing one file does: [mkdir], [open] and [yaml.safe_dump] go
    through, or one of them raises (an [OSError] from the file system, a
    [RecursionError] from the dump of a deeply nested value). *)
Definition disk : Type := string -> value -> result unit.

(** A statement that may write files and may raise. *)
Definition prog (A : Type) : Type := written -> written * result A.

Definition lift {A : Type} (m : result A) : prog A := fun w => (w, m).

Definition pbind {A B : Type} (m : prog A) (f : A -> prog B) : prog B :=
  fun w =>
    match m w with
    | (w', Ok a) => f a w'
    | (w', Raise e) => (w', Raise e)
    end.

Notation "x <<- m ;; k" := (pbind m (fun x => k))
  (at level 61, m at next level, right associativity).

(** [_write_yaml(OUTPUT_DIR / fname, data)]: when it raises, the files
    written before stay as they are, and its own file, which may be
    missing, empty or cut short, is not counted as written. *)
Definition _write_yaml (io : disk) (fname : string) (data : value)
  : prog unit :=
  fun w =>
    match io fname data with
    | Ok tt => (List.app w [(fname, data)], Ok tt)
    | Raise e => (w, Raise e)
    end.

Module Transform.

Definition main (export_exists : bool) (fs : string -> export_file)
    (io : disk) : prog Z :=
  if negb export_exists then lift (Ok 2%Z)
  else
    orgs <<- lift (load_and_normalize fs normalize_org "organizations") ;;
    creds <<- lift (load_and_normalize fs normalize_credential "credentials") ;;
    projs <<- lift (load_and_normalize fs normalize_project "projects") ;;
    invs <<- lift (load_and_normalize fs normalize_inventory "inventories") ;;
    tmps <<- lift (load_and_normalize fs normalize_job_template "job_templates") ;;
    wfts <<- lift (load_and_normalize fs normalize_workflow_template
                     "workflow_job_templates") ;;
    ees <<- lift (load_and_normalize fs normalize_execution_environment
                    "execution_environments") ;;
    _ <<- _write_yaml io "controller_organizations.yml"
            (VDict [ field "controller_organizations" (VList orgs) ]) ;;
    _ <<- _write_yaml io "controller_credentials.yml"
            (VDict [ field "controller_credentials" (VList creds) ]) ;;
    _ <<- _write_yaml io "controller_projects.yml"
            (VDict [ field "controller_projects" (VList projs) ]) ;;
    _ <<- _write_yaml io "controller_inventories.yml"
            (VDict [ field "controller_inventories" (VList invs) ]) ;;
    _ <<- _write_yaml io "controller_templates.yml"
            (VDict [ field "controller_templates" (VList tmps) ]) ;;
    _ <<- _write_yaml io "controller_workflows.yml"
            (VDict [ field "controller_workflows" (VList wfts) ]) ;;
    _ <<- _write_yaml io "controller_execution_environments.yml"
            (VDict [ field "controller_execution_environments" (VList ees) ]) ;;
    lift (Ok 0%Z).

End Transform.

(** The resource [main] loads for a kind, the file it writes and the
    top-level key it wraps the records under. *)
Definition resource_of (k : kind) : string :=
  match k with
  | Organization => "organizations"
  | Credential => "credentials"
  | Project => "projects"
  | Inventory => "inventories"
  | JobTemplate => "job_templates"
  | WorkflowTemplate => "workflow_job_templates"
  | ExecutionEnvironment => "execution_environments"
  end.

Definition top_key (k : kind) : string :=
  match k with
  | Organization => "controller_organizations"
  | Credential => "controller_credentials"
  | Project => "controller_projects"
  | Inventory => "controller_inventories"
  | JobTemplate => "controller_templates"
  | WorkflowTemplate => "controller_workflows"
  | ExecutionEnvironment => "controller_execution_environments"
  end.

Definition output_file (k : kind) : string := top_key k ++ ".yml".

Definition ALL_KINDS : list kind :=
  [ Organization; Credential; Project; Inventory; JobTemplate;
    WorkflowTemplate; ExecutionEnvironment ].

(** The records [main] reads for a kind. *)
Definition raw_records (fs : string -> export_file) (k : kind)
  : result (list value) :=
  doc <- _load_json fs (resource_of k) ;; py_iter doc.

(** The directory the verifier finds when it reads back what [main] wrote,
    each document loading as the data that was dumped. *)
Definition written_directory (w : written) : string -> file_state :=
  fun fname =>
    match assoc fname w with
    | Some data => Document data
    | None => Absent
    end.

(* ================================================================= *)
(** ** Vocabulary of the further properties *)

(** A string of whitespace only. *)
Fixpoint all_space (s : string) : bool :=
  match s with
  | EmptyString => true
  | String c s' => isspace c && all_space s'
  end.

(** A value [iter] accepts. *)
Definition iterable (v : value) : bool :=
  match v with
  | VList _ | VStr _ | VDict _ => true
  | _ => false
  end.

(** A value [_name] resolves to [None]: neither a mapping nor a string. *)
Definition unresolvable (v : value) : bool :=
  negb (isinstance_dict v) && negb (isinstance_str v).

(** The keys of the [payload] of each normalizer. *)
Definition CANONICAL_FIELDS (k : kind) : list string :=
  match k with
  | Organization => [ "name"; "state" ]
  | Credential =>
      [ "name"; "description"; "organization"; "credential_type"; "inputs";
        "state" ]
  | Project =>
      [ "name"; "description"; "organization"; "scm_type"; "scm_url";
        "scm_branch"; "scm_update_on_launch"; "allow_override"; "state" ]
  | Inventory =>
      [ "name"; "description"; "organization"; "variables"; "kind"; "state" ]
  | JobTemplate =>
      [ "name"; "description"; "organization"; "project"; "inventory";
        "execution_environment"; "job_type"; "playbook"; "credentials";
        "survey_enabled"; "limit"; "verbosity"; "state" ]
  | WorkflowTemplate => [ "name"; "description"; "organization"; "state" ]
  | ExecutionEnvironment => [ "name"; "image"; "organization"; "pull"; "state" ]
  end.

(** The value each normalizer writes for a field the raw record lacks. *)
Definition DEFAULTS (k : kind) : list (string * value) :=
  match k with
  | Organization => []
  | Credential => [ ("description", VStr "") ]
  | Project =>
      [ ("description", VStr ""); ("scm_branch", VStr "main");
        ("scm_update_on_launch", VBool true); ("allow_override", VBool true) ]
  | Inventory => [ ("description", VStr ""); ("kind", VStr "normal") ]
  | JobTemplate =>
      [ ("description", VStr ""); ("job_type", VStr "run");
        ("survey_enabled", VBool false); ("limit", VStr "");
        ("verbosity", VInt 0) ]
  | WorkflowTemplate => [ ("description", VStr "") ]
  | ExecutionEnvironment => [ ("pull", VStr "missing") ]
  end.

(** A key of [inputs] that is not one of the sensitive keys. *)
Definition not_sensitive (kv : key * value) : bool :=
  negb (existsb (fun s => key_eqb (fst kv) (KStr s)) SENSITIVE_KEYS).

(** The required fields [validate_list_items] checks for a kind. *)
Definition required_fields (kind : string) : list string :=
  match assoc kind REQUIRED_FIELDS_PER_LIST_ITEM with
  | Some r => r
  | None => ["name"]
  end.

(** An item [validate_list_items] has nothing to say about. *)
Definition item_conforms (required : list string) (obj : value) : bool :=
  match obj with
  | VDict d =>
      forallb (fun fld => negb (field_missing d fld)) required
      && negb (state_not_string d)
  | _ => false
  end.

Definition is_absent (f : file_state) : bool :=
  match f with Absent => true | _ => false end.

(** A document that is a non-zero number or [True]. *)
Definition scalar_document (f : file_state) : bool :=
  match f with
  | Document (VInt z) => negb (z =? 0)%Z
  | Document (VBool b) => b
  | Document (VFloat (S754_zero _)) => false
  | Document (VFloat _) => true
  | _ => false
  end.

(** A file that is absent, unreadable, empty, or holds a mapping. *)
Definition mapping_or_missing (f : file_state) : bool :=
  match f with
  | Document doc => isinstance_dict (load_yaml doc)
  | _ => true
  end.

(* ================================================================= *)
(** ** Further sample records *)

(** A credential as the controller API lists it: the type is its numeric
    id. *)
Definition numeric_type_credential : dict :=
  [ field "name" (VStr "c"); field "credential_type" (VInt 1) ].

(** A record that refers to its organization by id. *)
Definition id_reference_inventory : dict :=
  [ field "name" (VStr "hosts"); field "organization" (VInt 3) ].

(** A conforming organization item, and one without a name. *)
Definition named_item : value :=
  VDict [ field "name" (VStr "Default"); field "state" (VStr "present") ].

Definition nameless_item : dict := [ field "state" (VStr "present") ].

(** A disk every write succeeds on, and one that is full when the third
    file is written. *)
Definition sound_disk : disk := fun _ _ => Ok tt.

Definition disk_full_at_projects : disk :=
  fun fname _ =>
    if String.eqb fname "controller_projects.yml" then Raise OSError
    else Ok tt.

(** An export with one project and no other file. *)
Definition web_export : string -> export_file :=
  fun resource =>
    if String.eqb resource "projects" then Json (VList [ web_project ])
    else NoFile.

(** A workflow template whose name is blank. *)
Definition blank_name_workflow : dict := [ field "name" (VStr "  ") ].

(** A job template with blanks around its names and its description. *)
Definition padded_described_template : value :=
  VDict [ field "name" (VStr " Deploy ");
          field "description" (VStr " nightly ");
          field "organization" (VDict [ field "name" (VStr " Ops ") ]);
          field "credentials" (VList [ VStr " Vault Cred " ]) ].

Definition padded_described_template_canonical : value :=
  VDict [ field "name" (VStr "Deploy");
          field "description" (VStr " nightly ");
          field "organization" (VStr "Ops");
          field "job_type" (VStr "run");
          field "credentials" (VList [ VStr "Vault Cred" ]);
          field "survey_enabled" (VBool false);
          field "limit" (VStr "");
          field "verbosity" (VInt 0);
          field "state" (VStr "present") ].
(* ================================================================= *)
(** * Properties *)

(** ** The primitives evaluated *)

Lemma ok_inj {A : Type} (a b : A) : Ok a = Ok b -> a = b.
Proof. intros H. now injection H. Qed.

Lemma getf_dict (d : dict) (k : string) : getf (VDict d) k = Ok (dget d k).
Proof. reflexivity. Qed.

Lemma getf_ok_inv (r v : value) (k : string) :
  getf r k = Ok v -> exists d, r = VDict d /\ v = dget d k.
Proof.
  destruct r; cbn; try discriminate.
  intros H; injection H as <-. now exists d.
Qed.

Lemma name_eval (v : value) : _name v = Ok (name_of v).
Proof. destruct v; reflexivity. Qed.

Lemma stripped_eval (v : value) : _stripped v = Ok (stripped_of v).
Proof. destruct v; reflexivity. Qed.

Lemma stripped_or_none_eval (v : value) :
  stripped_or_none v = Ok (if truthy v then stripped_of v else VNone).
Proof.
  unfold stripped_or_none. destruct (truthy v); [apply stripped_eval | reflexivity].
Qed.

Lemma py_in_empties (v : value) :
  py_in v [VNone; VDict []; VList []] = is_empty v.
Proof.
  destruct v as [ | b | z | f | s | l | d ]; try reflexivity.
  - destruct l; reflexivity.
  - destruct d; reflexivity.
Qed.

Lemma py_in_empties' (v : value) :
  py_in v [VNone; VList []; VDict []] = is_empty v.
Proof.
  destruct v as [ | b | z | f | s | l | d ]; try reflexivity.
  - destruct l; reflexivity.
  - destruct d; reflexivity.
Qed.

Lemma is_empty_spec (v : value) :
  is_empty v = true <-> v = VNone \/ v = VDict [] \/ v = VList [].
Proof.
  split.
  - destruct v as [ | | | | | [ | ] | [ | ] ]; cbn; try discriminate; auto.
  - intros [-> | [-> | ->]]; reflexivity.
Qed.

Lemma truthy_not_empty (v : value) : truthy v = true -> is_empty v = false.
Proof. destruct v as [ | | | | | [ | ] | [ | ] ]; cbn; congruence. Qed.

(** ** Whitespace stripping *)

Lemma rstrip_cons_nonspace (c : ascii) (s : string) :
  isspace c = false -> rstrip (String c s) = String c (rstrip s).
Proof. intros H. cbn. rewrite H. destruct (rstrip s); reflexivity. Qed.

Lemma lstrip_head (s : string) :
  match lstrip s with
  | EmptyString => True
  | String c _ => isspace c = false
  end.
Proof.
  induction s as [ | c s IH]; cbn; [exact I | ].
  destruct (isspace c) eqn:E; [exact IH | exact E].
Qed.

Lemma lstrip_nonspace (c : ascii) (s : string) :
  isspace c = false -> lstrip (String c s) = String c s.
Proof. intros H. cbn. now rewrite H. Qed.

Lemma rstrip_last (s : string) :
  match last_char (rstrip s) with
  | Some c => isspace c = false
  | None => True
  end.
Proof.
  induction s as [ | c s IH]; cbn; [exact I | ].
  destruct (rstrip s) as [ | c2 r2] eqn:E.
  - destruct (isspace c) eqn:Ec; cbn; [exact I | exact Ec].
  - exact IH.
Qed.

Lemma rstrip_idem (s : string) : rstrip (rstrip s) = rstrip s.
Proof.
  induction s as [ | c s IH]; cbn; [reflexivity | ].
  destruct (rstrip s) as [ | c2 r2] eqn:E.
  - destruct (isspace c) eqn:Ec; cbn; [reflexivity | now rewrite Ec].
  - change (rstrip (String c (String c2 r2)) = String c (String c2 r2)).
    cbn [rstrip]. fold rstrip.
    change (match rstrip (String c2 r2) with
            | EmptyString => if isspace c then EmptyString else String c EmptyString
            | String a r => String c (String a r)
            end = String c (String c2 r2)).
    rewrite IH. reflexivity.
Qed.

Lemma strip_idem (s : string) : strip (strip s) = strip s.
Proof.
  unfold strip. pose proof (lstrip_head s) as H.
  destruct (lstrip s) as [ | c t]; [reflexivity | ].
  rewrite (rstrip_cons_nonspace c t H).
  rewrite (lstrip_nonspace c _ H).
  rewrite (rstrip_cons_nonspace c _ H).
  now rewrite rstrip_idem.
Qed.

Lemma strip_trimmed (s : string) : trimmed (strip s) = true.
Proof.
  unfold strip. pose proof (lstrip_head s) as H.
  destruct (lstrip s) as [ | c t]; [reflexivity | ].
  pose proof (rstrip_last (String c t)) as L.
  rewrite (rstrip_cons_nonspace c t H) in *.
  unfold trimmed. rewrite H. cbn [negb andb].
  destruct (last_char (String c (rstrip t))); [now rewrite L | reflexivity].
Qed.

Lemma stripped_of_idem (v : value) : stripped_of (stripped_of v) = stripped_of v.
Proof. destruct v; cbn; try reflexivity. now rewrite strip_idem. Qed.

Lemma py_get_dict (d : dict) (k : string) (dflt : value) :
  py_get (VDict d) (VStr k) dflt = Ok (dget_or d k dflt).
Proof. reflexivity. Qed.

Lemma sparse_prune (payload : dict) :
  sparse [VNone; VDict []; VList []] payload = VDict (prune payload).
Proof.
  unfold sparse, prune. f_equal. apply filter_ext.
  intros kv. now rewrite py_in_empties.
Qed.

Lemma sparse_prune' (payload : dict) :
  sparse [VNone; VList []; VDict []] payload = VDict (prune payload).
Proof.
  unfold sparse, prune. f_equal. apply filter_ext.
  intros kv. now rewrite py_in_empties'.
Qed.

Lemma credential_names_eval (items : list value) :
  credential_names items = Ok (names_of items).
Proof.
  induction items as [ | c rest IH]; [reflexivity | ].
  cbn [credential_names]. rewrite name_eval. cbn [bind].
  unfold names_of in *. cbn [map filter].
  destruct (truthy (name_of c)).
  - rewrite stripped_eval. cbn [bind]. rewrite IH. reflexivity.
  - exact IH.
Qed.

(** ** Normal forms of the normalizers *)

Ltac eval_py :=
  repeat (first [ rewrite getf_dict | rewrite py_get_dict | rewrite name_eval
                | rewrite stripped_eval | rewrite stripped_or_none_eval
                | rewrite credential_names_eval ];
          cbn [bind]).

Lemma not_dict_raises (k : kind) (r : value) :
  isinstance_dict r = false -> normalizer k r = Raise AttributeError.
Proof.
  intros H. destruct r; try discriminate; destruct k; reflexivity.
Qed.

Lemma normalize_org_dict (d : dict) :
  normalize_org (VDict d) = Ok (VDict (org_payload d)).
Proof. unfold normalize_org. eval_py. reflexivity. Qed.

Lemma normalize_project_dict (d : dict) :
  normalize_project (VDict d) = Ok (VDict (prune (project_payload d))).
Proof.
  unfold normalize_project. eval_py.
  rewrite <- sparse_prune. unfold project_payload, project_scm_type, ref_field, ref_value.
  destruct (truthy (dget d "scm_type")); eval_py; reflexivity.
Qed.

Lemma normalize_inventory_dict (d : dict) :
  normalize_inventory (VDict d) = Ok (VDict (prune (inventory_payload d))).
Proof.
  unfold normalize_inventory. eval_py. rewrite <- sparse_prune. reflexivity.
Qed.

Lemma normalize_workflow_template_dict (d : dict) :
  normalize_workflow_template (VDict d)
  = Ok (VDict (prune (workflow_payload d))).
Proof.
  unfold normalize_workflow_template. eval_py. rewrite <- sparse_prune'.
  reflexivity.
Qed.

Lemma normalize_execution_environment_dict (d : dict) :
  normalize_execution_environment (VDict d)
  = Ok (VDict (prune (execution_environment_payload d))).
Proof.
  unfold normalize_execution_environment. eval_py. rewrite <- sparse_prune'.
  reflexivity.
Qed.

Lemma normalize_job_template_dict (d : dict) :
  normalize_job_template (VDict d)
  = items <- py_iter (py_or (dget d "credentials") (VList [])) ;;
    Ok (VDict (prune (job_template_payload d items))).
Proof.
  unfold normalize_job_template. eval_py.
  destruct (py_iter (py_or (dget d "credentials") (VList []))) as [items | e];
    cbn [bind]; [ | reflexivity].
  eval_py. rewrite <- sparse_prune'. reflexivity.
Qed.

(** ** The credential type table *)

Lemma dict_lookup_In (k : key) (d : dict) (v : value) :
  dict_lookup k d = Some v ->
  exists k', In (k', v) d /\ key_eqb k' k = true.
Proof.
  induction d as [ | [k' w] d IH]; cbn; [discriminate | ].
  destruct (key_eqb k' k) eqn:E.
  - intros H; injection H as <-. exists k'. auto.
  - intros H. destruct (IH H) as (k'' & Hin & Hk). exists k''. auto.
Qed.

Lemma key_eqb_str (s : string) (k : key) :
  key_eqb (KStr s) k = true -> k = KStr s.
Proof.
  destruct k; cbn; try discriminate.
  intros H. apply String.eqb_eq in H. now subst.
Qed.

Lemma CREDTYPE_MAP_entries (k : key) (v : value) :
  In (k, v) CREDTYPE_MAP -> exists s, k = KStr s /\ v = VStr s.
Proof.
  cbn. intros H.
  repeat (destruct H as [H | H]; [injection H as <- <-; eauto | ]).
  destruct H.
Qed.

Lemma CREDTYPE_MAP_lookup (k : key) (v : value) :
  dict_lookup k CREDTYPE_MAP = Some v -> v = of_key k.
Proof.
  intros H. apply dict_lookup_In in H. destruct H as (k' & Hin & Hk).
  apply CREDTYPE_MAP_entries in Hin. destruct Hin as (s & -> & ->).
  apply key_eqb_str in Hk. now subst.
Qed.

Lemma of_to_key (v : value) (k : key) : to_key v = Some k -> of_key k = v.
Proof. destruct v; cbn; intros H; try discriminate; now injection H as <-. Qed.

Lemma credtype_get (label : value) :
  dict_get CREDTYPE_MAP label label
  = match to_key label with
    | Some _ => Ok label
    | None => Raise TypeError
    end.
Proof.
  unfold dict_get. destruct (to_key label) as [k | ] eqn:E; [ | reflexivity].
  destruct (dict_lookup k CREDTYPE_MAP) as [v | ] eqn:L; [ | reflexivity].
  apply CREDTYPE_MAP_lookup in L. subst. now rewrite (of_to_key _ _ E).
Qed.

Lemma py_or_dict_empty (i : dict) : py_or (VDict i) (VDict []) = VDict i.
Proof. destruct i; reflexivity. Qed.

Lemma normalize_credential_dict (d : dict) :
  normalize_credential (VDict d)
  = ctn <- getf (py_or (dget d "credential_type") (VDict [])) "name" ;;
    let label := py_or ctn (dget d "kind") in
    ct_name <- dict_get CREDTYPE_MAP label label ;;
    inputs <- py_dict (py_or (dget d "inputs") (VDict [])) ;;
    Ok (VDict (prune (credential_payload d (credential_org d) ct_name
                        (pop_sensitive inputs)))).
Proof.
  unfold normalize_credential. eval_py.
  destruct (getf (py_or (dget d "credential_type") (VDict [])) "name")
    as [ctn | e]; cbn [bind]; [ | reflexivity].
  assert (L : (if truthy ctn then Ok ctn else Ok (dget d "kind"))
              = Ok (py_or ctn (dget d "kind"))).
  { unfold py_or. destruct (truthy ctn); reflexivity. }
  rewrite L. cbn [bind].
  destruct (dict_get CREDTYPE_MAP _ _) as [ct_name | e]; cbn [bind];
    [ | reflexivity].
  eval_py.
  assert (O : (if truthy (name_of (dget d "organization"))
               then Ok (name_of (dget d "organization"))
               else Ok (name_of (dget d "organization_id")))
              = Ok (credential_org d)).
  { unfold credential_org, py_or.
    destruct (truthy (name_of (dget d "organization"))); reflexivity. }
  rewrite O. cbn [bind]. eval_py.
  destruct (py_dict _) as [inputs | e]; cbn [bind]; [ | reflexivity].
  eval_py. rewrite sparse_prune, py_or_dict_empty. reflexivity.
Qed.

(** A normalizer returns only on a mapping. *)
Lemma normalizer_ok_dict (k : kind) (r out : value) :
  normalizer k r = Ok out -> exists d, r = VDict d.
Proof.
  intros H. destruct r as [ | | | | | | d]; try (destruct k; discriminate).
  now exists d.
Qed.

Lemma normalize_credential_inv (d : dict) (out : value) :
  normalize_credential (VDict d) = Ok out ->
  exists ctn inputs,
    getf (py_or (dget d "credential_type") (VDict [])) "name" = Ok ctn
    /\ to_key (py_or ctn (dget d "kind")) <> None
    /\ py_dict (py_or (dget d "inputs") (VDict [])) = Ok inputs
    /\ out = VDict (prune (credential_payload d (credential_org d)
                             (py_or ctn (dget d "kind"))
                             (pop_sensitive inputs))).
Proof.
  rewrite normalize_credential_dict.
  destruct (getf _ "name") as [ctn | e]; cbn [bind]; [ | discriminate].
  rewrite credtype_get.
  destruct (to_key (py_or ctn (dget d "kind"))) as [kk | ] eqn:E;
    cbn [bind]; [ | discriminate].
  destruct (py_dict _) as [inputs | e]; cbn [bind]; [ | discriminate].
  intros H; injection H as <-.
  exists ctn, inputs. repeat split; congruence.
Qed.

(** ** Looking a field up in a pruned payload *)

Lemma dict_lookup_absent (k : key) (p : dict) :
  existsb (fun kv => key_eqb (fst kv) k) p = false -> dict_lookup k p = None.
Proof.
  induction p as [ | [k' v] p IH]; cbn; [reflexivity | ].
  destruct (key_eqb k' k); cbn; [discriminate | exact IH].
Qed.

Lemma lookup_filter (f : value -> bool) (p : dict) (k : string) :
  str_keys_distinct p = true ->
  dict_lookup (KStr k) (filter (fun kv => f (snd kv)) p)
  = match dict_lookup (KStr k) p with
    | Some v => if f v then Some v else None
    | None => None
    end.
Proof.
  induction p as [ | [k' v] p IH]; [reflexivity | ].
  destruct k' as [ | | | | s]; try discriminate.
  cbn [str_keys_distinct]. intros H. apply andb_prop in H. destruct H as [H1 H2].
  apply negb_true_iff in H1. specialize (IH H2).
  cbn [filter snd dict_lookup].
  destruct (key_eqb (KStr s) (KStr k)) eqn:E.
  - apply key_eqb_str in E. injection E as ->.
    destruct (f v).
    + cbn [dict_lookup]. cbn. now rewrite String.eqb_refl.
    + rewrite IH. now rewrite (dict_lookup_absent _ _ H1).
  - destruct (f v); [ | exact IH].
    cbn [dict_lookup]. rewrite E. exact IH.
Qed.

Lemma lookup_prune (p : dict) (k : string) :
  str_keys_distinct p = true ->
  dict_lookup (KStr k) (prune p)
  = match dict_lookup (KStr k) p with
    | Some v => if is_empty v then None else Some v
    | None => None
    end.
Proof.
  intros H. unfold prune.
  rewrite (lookup_filter (fun v => negb (is_empty v)) p k H).
  destruct (dict_lookup (KStr k) p) as [v | ]; [ | reflexivity].
  destruct (is_empty v); reflexivity.
Qed.

Lemma In_prune (p : dict) (k : key) (v : value) :
  In (k, v) (prune p) <-> In (k, v) p /\ is_empty v = false.
Proof.
  unfold prune. rewrite filter_In. cbn [snd].
  now rewrite negb_true_iff.
Qed.

(** ** Reference resolution *)

(** C7: [_name] never raises: on a mapping it returns the value under the
    key [name], or [None] when the key is absent; on a string it returns the
    string itself; on any other value, [None] included, it returns [None]. *)
Theorem name_resolution_total (v : value) :
  _name v
  = Ok (match v with
        | VDict d =>
            match dict_lookup (KStr "name") d with
            | Some n => n
            | None => VNone
            end
        | VStr s => VStr s
        | _ => VNone
        end).
Proof. destruct v; reflexivity. Qed.

(** ** Secret stripping *)

Lemma filter_filter {A : Type} (f g : A -> bool) (l : list A) :
  filter f (filter g l) = filter (fun x => g x && f x) l.
Proof.
  induction l as [ | a l IH]; [reflexivity | ].
  cbn. destruct (g a); cbn; [destruct (f a) | ]; now rewrite IH.
Qed.

Lemma pop_keys_filter (ks : list string) (i : dict) :
  fold_left (fun d k => dict_pop (KStr k) d) ks i
  = filter (fun kv => negb (existsb (fun s => key_eqb (fst kv) (KStr s)) ks)) i.
Proof.
  revert i. induction ks as [ | k ks IH]; intros i; cbn [fold_left existsb].
  - symmetry. apply forallb_filter_id. now apply forallb_forall.
  - rewrite IH. unfold dict_pop. rewrite filter_filter.
    apply filter_ext. intros kv. now rewrite negb_orb.
Qed.

Lemma lookup_filter_none (P : key * value -> bool) (k : key) (i : dict) :
  (forall kv, key_eqb (fst kv) k = true -> P kv = false) ->
  dict_lookup k (filter P i) = None.
Proof.
  intros H. induction i as [ | [k' v] i IH]; [reflexivity | ].
  cbn [filter]. destruct (P (k', v)) eqn:E; [ | exact IH].
  cbn [dict_lookup]. destruct (key_eqb k' k) eqn:K; [ | exact IH].
  specialize (H (k', v) K). congruence.
Qed.

Lemma pop_sensitive_lookup (k : string) (i : dict) :
  In k SENSITIVE_KEYS -> dict_lookup (KStr k) (pop_sensitive i) = None.
Proof.
  intros Hk. unfold pop_sensitive. rewrite pop_keys_filter.
  apply lookup_filter_none. intros kv E.
  apply negb_false_iff. apply existsb_exists. now exists k.
Qed.

Lemma pop_sensitive_idem (i : dict) :
  pop_sensitive (pop_sensitive i) = pop_sensitive i.
Proof.
  unfold pop_sensitive. rewrite !pop_keys_filter, filter_filter.
  apply filter_ext. intros kv. now rewrite andb_diag.
Qed.

(** On a dictionary, whose keys are pairwise distinct, popping a key removes
    the one item stored under it. *)
Lemma dict_pop_first (k : key) (k' : key) (v : value) (d : dict) :
  existsb (fun kv => key_eqb (fst kv) k) d = false ->
  dict_pop k ((k', v) :: d)
  = if key_eqb k' k then d else (k', v) :: d.
Proof.
  intros H. unfold dict_pop. cbn [filter fst].
  assert (F : filter (fun kv => negb (key_eqb (fst kv) k)) d = d).
  { apply forallb_filter_id. apply forallb_forall. intros kv Hin.
    apply negb_true_iff.
    destruct (key_eqb (fst kv) k) eqn:E; [ | reflexivity].
    rewrite <- H. symmetry. apply existsb_exists. now exists kv. }
  rewrite F. now destruct (key_eqb k' k).
Qed.

Ltac payload_lookup :=
  cbn [credential_payload project_payload inventory_payload org_payload
       job_template_payload workflow_payload execution_environment_payload
       field dict_lookup key_eqb String.eqb Ascii.eqb Bool.eqb].

(** C1: whatever the raw credential holds, the record [normalize_credential]
    returns has an [inputs] mapping without any of the keys [password],
    [secret], [ssh_key_data], [ssh_key_unlock], [token], [client_secret],
    [become_password] (or no [inputs] field at all, when nothing is left). *)
Theorem credential_inputs_without_secrets (c out : value) (k : string) :
  normalize_credential c = Ok out ->
  In k SENSITIVE_KEYS ->
  match lookup_field out "inputs" with
  | Some (VDict inputs) => dict_lookup (KStr k) inputs = None
  | Some _ => False
  | None => True
  end.
Proof.
  intros H Hk.
  destruct (normalizer_ok_dict Credential c out H) as [d ->].
  apply normalize_credential_inv in H.
  destruct H as (ctn & inputs & _ & _ & _ & ->).
  cbn [lookup_field]. rewrite lookup_prune by reflexivity.
  payload_lookup.
  destruct (is_empty (VDict (pop_sensitive inputs))); [exact I | ].
  now apply pop_sensitive_lookup.
Qed.

Lemma credential_inputs_without_secrets_witness :
  match lookup_field vault_credential_canonical "inputs" with
  | Some (VDict inputs) => dict_lookup (KStr "password") inputs = None
  | Some _ => False
  | None => True
  end.
Proof.
  apply (credential_inputs_without_secrets vault_credential
           vault_credential_canonical "password").
  - reflexivity.
  - cbn. auto.
Defined.

(** ** Type mapping *)

Lemma dget_prune (p : dict) (k : string) :
  str_keys_distinct p = true ->
  dget (prune p) k
  = match dict_lookup (KStr k) p with
    | Some v => if is_empty v then VNone else v
    | None => VNone
    end.
Proof.
  intros H. unfold dget. rewrite (lookup_prune p k H).
  destruct (dict_lookup (KStr k) p) as [v | ]; [ | reflexivity].
  destruct (is_empty v); reflexivity.
Qed.

Lemma hashable_empty (v : value) :
  to_key v <> None -> is_empty v = true -> v = VNone.
Proof.
  destruct v as [ | | | | | l | d]; cbn; try discriminate; try reflexivity;
    intros H; now destruct H.
Qed.

(** C9: every entry of [CREDTYPE_MAP] maps a label to itself, so the lookup
    [CREDTYPE_MAP.get(label, label)] returns [label] for every (hashable)
    label, in the table or not; hence the [credential_type] a returned
    credential record holds is the label derived from the nested
    [credential_type] object's name, or from [kind] when that name is
    missing or falsy. *)
Theorem credential_type_is_derived_label (c out : value) :
  normalize_credential c = Ok out ->
  Forall (fun kv => of_key (fst kv) = snd kv) CREDTYPE_MAP
  /\ (forall label : value,
        dict_get CREDTYPE_MAP label label
        = match to_key label with
          | Some _ => Ok label
          | None => Raise TypeError
          end)
  /\ exists label,
       derived_label c = Ok label
       /\ getf out "credential_type" = Ok label.
Proof.
  intros H. split; [ | split].
  - repeat constructor.
  - exact credtype_get.
  - destruct (normalizer_ok_dict Credential c out H) as [d ->].
    apply normalize_credential_inv in H.
    destruct H as (ctn & inputs & Hn & Hk & _ & ->).
    exists (py_or ctn (dget d "kind")). split.
    + unfold derived_label. rewrite getf_dict. cbn [bind]. rewrite Hn.
      cbn [bind]. rewrite getf_dict. unfold py_or.
      destruct (truthy ctn); reflexivity.
    + rewrite getf_dict. f_equal. rewrite dget_prune by reflexivity.
      payload_lookup.
      destruct (is_empty (py_or ctn (dget d "kind"))) eqn:E; [ | reflexivity].
      symmetry. now apply hashable_empty.
Qed.

Lemma credential_type_is_derived_label_witness :
  Forall (fun kv => of_key (fst kv) = snd kv) CREDTYPE_MAP
  /\ (forall label : value,
        dict_get CREDTYPE_MAP label label
        = match to_key label with
          | Some _ => Ok label
          | None => Raise TypeError
          end)
  /\ exists label,
       derived_label vault_credential = Ok label
       /\ getf vault_credential_canonical "credential_type" = Ok label.
Proof.
  apply (credential_type_is_derived_label vault_credential
           vault_credential_canonical).
  reflexivity.
Defined.

(** ** The sparse-record filter *)

(** C10: the filter the normalizers end with drops exactly the items whose
    value is [None], the empty mapping or the empty sequence; an item whose
    value is the empty string stays; so a credential without a
    [description] key normalizes to a record whose [description] is the
    empty string. *)
Theorem empty_description_retained (d : dict) (out : value) :
  dict_lookup (KStr "description") d = None ->
  normalize_credential (VDict d) = Ok out ->
  (forall (empties : list value) (payload : dict) (k : key) (v : value),
      In empties [ [VNone; VDict []; VList []]; [VNone; VList []; VDict []] ] ->
      In (k, v) (items_of (sparse empties payload))
      <-> In (k, v) payload /\ v <> VNone /\ v <> VDict [] /\ v <> VList [])
  /\ sparse [VNone; VDict []; VList []] [ field "description" (VStr "") ]
     = VDict [ field "description" (VStr "") ]
  /\ lookup_field out "description" = Some (VStr "").
Proof.
  intros Hd H. split; [ | split].
  - intros empties payload k v He.
    assert (S : sparse empties payload = VDict (prune payload)).
    { destruct He as [<- | [<- | []]];
        [apply sparse_prune | apply sparse_prune']. }
    rewrite S. cbn [items_of]. rewrite In_prune.
    assert (E : is_empty v = false
                <-> v <> VNone /\ v <> VDict [] /\ v <> VList []).
    { rewrite <- not_true_iff_false, is_empty_spec. tauto. }
    now rewrite E.
  - reflexivity.
  - apply normalize_credential_inv in H.
    destruct H as (ctn & inputs & _ & _ & _ & ->).
    cbn [lookup_field]. rewrite lookup_prune by reflexivity.
    payload_lookup. unfold dget. rewrite Hd. reflexivity.
Qed.

Lemma empty_description_retained_witness :
  (forall (empties : list value) (payload : dict) (k : key) (v : value),
      In empties [ [VNone; VDict []; VList []]; [VNone; VList []; VDict []] ] ->
      In (k, v) (items_of (sparse empties payload))
      <-> In (k, v) payload /\ v <> VNone /\ v <> VDict [] /\ v <> VList [])
  /\ sparse [VNone; VDict []; VList []] [ field "description" (VStr "") ]
     = VDict [ field "description" (VStr "") ]
  /\ lookup_field bare_credential_canonical "description" = Some (VStr "").
Proof.
  apply (empty_description_retained bare_credential bare_credential_canonical);
    reflexivity.
Defined.

(** ** End-to-end scenarios *)

(** C5, as stated, fails: the record built from
    [{"name": " Web ", "scm_url": "https://x/y.git"}] is not equal to the
    expected six-field record. *)
Lemma web_project_not_as_expected :
  ~ (exists out,
        normalize_project web_project = Ok out
        /\ py_eqb out web_project_expected = true).
Proof.
  intros (out & H & E). vm_compute in H. injection H as <-.
  vm_compute in E. discriminate.
Qed.

(** C5, amended: the project [{"name": " Web ", "scm_url": "https://x/y.git"}]
    normalizes to the trimmed name, the empty description, [scm_type] [git],
    the [scm_url] itself, [scm_branch] [main], both booleans true and
    [state] [present], in this order. *)
Theorem web_project_normalized :
  normalize_project web_project = Ok web_project_canonical.
Proof. reflexivity. Qed.

(** ** Exit status of the verifier *)

(** C3, as stated, fails: on a directory without any expected file the
    verifier has warnings only, and in strict mode it does not exit
    with 2. *)
Lemma strict_warnings_exit_not_2 :
  only_warnings "_cac_25" empty_directory
  /\ main true "_cac_25" true empty_directory <> Ok 2%Z.
Proof.
  split.
  - eexists. split; [reflexivity | ]. split; [discriminate | reflexivity].
  - vm_compute. discriminate.
Qed.

(** C3, amended: when the verifier runs on an existing directory and
    accumulates at least one warning and no error, it exits with 0 when
    strict mode is off and with 1 when strict mode is on. *)
Theorem warnings_only_exit_status (base : string) (fs : string -> file_state) :
  only_warnings base fs ->
  main false base true fs = Ok 0%Z /\ main true base true fs = Ok 1%Z.
Proof.
  intros (r & Hr & Hw & He). unfold main. cbn [negb]. rewrite Hr.
  cbn [bind]. unfold exit_status. rewrite He.
  destruct (warnings r); [contradiction | split; reflexivity].
Qed.

Lemma warnings_only_exit_status_witness :
  main false "_cac_25" true empty_directory = Ok 0%Z
  /\ main true "_cac_25" true empty_directory = Ok 1%Z.
Proof.
  apply (warnings_only_exit_status "_cac_25" empty_directory).
  eexists. split; [reflexivity | ]. split; [discriminate | reflexivity].
Defined.

(** ** Credentials of a job template *)

(** C8, as stated, fails: an entry that resolves to the empty string is not
    null, yet it is left out of [credentials]. *)
Lemma empty_name_credential_dropped :
  exists out,
    normalize_job_template (VDict unnamed_credential_job_template) = Ok out
    /\ lookup_field out "credentials" = Some (VList [VStr "Vault Cred"])
    /\ lookup_field out "credentials"
       <> Some (VList (resolved_non_null
                        [ VDict [ field "name" (VStr "") ];
                          VDict [ field "name" (VStr "Vault Cred") ] ])).
Proof.
  eexists. split; [reflexivity | ]. split; [reflexivity | ].
  vm_compute. discriminate.
Qed.

(** C8, amended: for a job template whose [credentials] is a list, the
    canonical [credentials] is the list of the whitespace-stripped resolved
    names of the entries whose resolved name is truthy (neither null, nor
    empty, nor zero), in the original order, and the field is left out when
    that list is empty; in particular [{"name": "Vault Cred"}, {"id": 7}]
    gives ["Vault Cred"]. *)
Theorem job_template_credentials (d : dict) (l : list value) :
  dict_lookup (KStr "credentials") d = Some (VList l) ->
  (exists out,
      normalize_job_template (VDict d) = Ok out
      /\ lookup_field out "credentials"
         = match map stripped_of (filter truthy (map name_of l)) with
           | [] => None
           | names => Some (VList names)
           end)
  /\ (exists out,
        normalize_job_template (VDict vault_job_template) = Ok out
        /\ lookup_field out "credentials" = Some (VList [VStr "Vault Cred"])).
Proof.
  intros H. split; [ | eexists; split; reflexivity].
  rewrite normalize_job_template_dict.
  assert (I : py_iter (py_or (dget d "credentials") (VList [])) = Ok l).
  { unfold dget. rewrite H. destruct l; reflexivity. }
  rewrite I. cbn [bind]. eexists. split; [reflexivity | ].
  cbn [lookup_field]. rewrite lookup_prune by reflexivity.
  payload_lookup. unfold names_of.
  destruct (map stripped_of (filter truthy (map name_of l))); reflexivity.
Qed.

Lemma job_template_credentials_witness :
  (exists out,
      normalize_job_template (VDict vault_job_template) = Ok out
      /\ lookup_field out "credentials"
         = match map stripped_of
                   (filter truthy
                      (map name_of
                         [ VDict [ field "name" (VStr "Vault Cred") ];
                           VDict [ field "id" (VInt 7) ] ])) with
           | [] => None
           | names => Some (VList names)
           end)
  /\ (exists out,
        normalize_job_template (VDict vault_job_template) = Ok out
        /\ lookup_field out "credentials" = Some (VList [VStr "Vault Cred"])).
Proof.
  apply (job_template_credentials vault_job_template).
  reflexivity.
Defined.

(** ** Whitespace *)

Lemma stripped_of_str (x : value) (s : string) :
  stripped_of x = VStr s -> trimmed s = true.
Proof.
  destruct x; cbn; try discriminate.
  intros H; injection H as <-. apply strip_trimmed.
Qed.

Lemma ref_value_str (x : value) (s : string) :
  ref_value x = VStr s -> trimmed s = true.
Proof.
  unfold ref_value. destruct (truthy x); [apply stripped_of_str | discriminate].
Qed.

Lemma names_of_trimmed (items : list value) (s : string) :
  In (VStr s) (names_of items) -> trimmed s = true.
Proof.
  unfold names_of. intros H. apply in_map_iff in H.
  destruct H as (x & Hx & _). now apply stripped_of_str in Hx.
Qed.

(** C6, as stated, fails: [description] is written as it is read, blanks
    included. *)
Lemma description_not_trimmed :
  exists out,
    normalizer Credential padded_credential = Ok out
    /\ lookup_field out "description" = Some (VStr " x ")
    /\ trimmed " x " = false.
Proof. eexists. repeat split. Qed.

Ltac payload_lookup_in H :=
  cbn [credential_payload project_payload inventory_payload org_payload
       job_template_payload workflow_payload execution_environment_payload
       field dict_lookup key_eqb String.eqb Ascii.eqb Bool.eqb] in H.

Ltac pruned_field H :=
  cbn [lookup_field] in H;
  try (rewrite lookup_prune in H by reflexivity);
  payload_lookup_in H;
  try discriminate H;
  try (match type of H with
       | context [is_empty ?v] => destruct (is_empty v); [discriminate H | ]
       end);
  injection H as H.

Ltac trimmed_field H :=
  pruned_field H;
  first [ apply stripped_of_str in H; exact H
        | apply ref_value_str in H; exact H ].

Lemma description_as_read (k : kind) (d : dict) (out : value) :
  normalizer k (VDict d) = Ok out ->
  k <> Organization ->
  k <> ExecutionEnvironment ->
  truthy (dget d "description") = true ->
  lookup_field out "description" = Some (dget d "description").
Proof.
  intros H NO NE T.
  assert (P : exists p,
             out = VDict (prune p)
             /\ str_keys_distinct p = true
             /\ dict_lookup (KStr "description") p
                = Some (py_or (dget d "description") (VStr ""))).
  { destruct k; cbn [normalizer] in H; try contradiction.
    - apply normalize_credential_inv in H.
      destruct H as (ctn & inputs & _ & _ & _ & ->).
      eexists. repeat split.
    - rewrite normalize_project_dict in H. apply ok_inj in H. subst out.
      eexists. repeat split.
    - rewrite normalize_inventory_dict in H. apply ok_inj in H. subst out.
      eexists. repeat split.
    - rewrite normalize_job_template_dict in H.
      destruct (py_iter _) as [items | e]; cbn [bind] in H; [ | discriminate].
      apply ok_inj in H. subst out. eexists. repeat split.
    - rewrite normalize_workflow_template_dict in H. apply ok_inj in H.
      subst out. eexists. repeat split. }
  destruct P as (p & -> & D & L). cbn [lookup_field].
  rewrite (lookup_prune p _ D), L. unfold py_or. rewrite T.
  now rewrite (truthy_not_empty _ T).
Qed.

(** C6, amended: in the record any normalizer returns, each of the fields
    [name], [organization], [project], [inventory],
    [execution_environment] and [image] that holds a string, and each
    string in a job template's [credentials], has no whitespace at either
    end; [description] is not stripped: in the five kinds that have it, a
    truthy raw description is written exactly as read, surrounding
    whitespace included. *)
Theorem stripped_fields_trimmed (k : kind) (r out : value) :
  normalizer k r = Ok out ->
  (forall f s,
      In f STRIPPED_FIELDS ->
      lookup_field out f = Some (VStr s) -> trimmed s = true)
  /\ (forall l s,
        lookup_field out "credentials" = Some (VList l) ->
        In (VStr s) l -> trimmed s = true)
  /\ (forall v,
        k <> Organization ->
        k <> ExecutionEnvironment ->
        getf r "description" = Ok v ->
        truthy v = true ->
        lookup_field out "description" = Some v).
Proof.
  intros H. destruct (normalizer_ok_dict k r out H) as [d ->].
  assert (Q : forall v,
             k <> Organization ->
             k <> ExecutionEnvironment ->
             getf (VDict d) "description" = Ok v ->
             truthy v = true ->
             lookup_field out "description" = Some v).
  { intros v NO NE G T. rewrite getf_dict in G. apply ok_inj in G. subst v.
    now apply (description_as_read k d out). }
  assert (P : exists p,
             out = VDict p
             /\ (forall f s, In f STRIPPED_FIELDS ->
                   dict_lookup (KStr f) p = Some (VStr s) -> trimmed s = true)
             /\ (forall l s, dict_lookup (KStr "credentials") p = Some (VList l) ->
                   In (VStr s) l -> trimmed s = true)).
  { destruct k; cbn [normalizer] in H.
    - rewrite normalize_org_dict in H. apply ok_inj in H. subst out.
      eexists. split; [reflexivity | ]. split.
      + intros f s Hf L. cbn in Hf.
        repeat (destruct Hf as [<- | Hf]; [trimmed_field L | ]). destruct Hf.
      + intros l s L. discriminate L.
    - apply normalize_credential_inv in H.
      destruct H as (ctn & inputs & _ & _ & _ & ->).
      eexists. split; [reflexivity | ]. split.
      + intros f s Hf L. cbn in Hf.
        repeat (destruct Hf as [<- | Hf]; [trimmed_field L | ]). destruct Hf.
      + intros l s L. pruned_field L.
    - rewrite normalize_project_dict in H. apply ok_inj in H. subst out.
      eexists. split; [reflexivity | ]. split.
      + intros f s Hf L. cbn in Hf.
        repeat (destruct Hf as [<- | Hf]; [trimmed_field L | ]). destruct Hf.
      + intros l s L. pruned_field L.
    - rewrite normalize_inventory_dict in H. apply ok_inj in H. subst out.
      eexists. split; [reflexivity | ]. split.
      + intros f s Hf L. cbn in Hf.
        repeat (destruct Hf as [<- | Hf]; [trimmed_field L | ]). destruct Hf.
      + intros l s L. pruned_field L.
    - rewrite normalize_job_template_dict in H.
      destruct (py_iter _) as [items | e]; cbn [bind] in H; [ | discriminate].
      apply ok_inj in H. subst out.
      eexists. split; [reflexivity | ]. split.
      + intros f s Hf L. cbn in Hf.
        repeat (destruct Hf as [<- | Hf]; [trimmed_field L | ]). destruct Hf.
      + intros l s L Hin. pruned_field L. subst l.
        now apply names_of_trimmed in Hin.
    - rewrite normalize_workflow_template_dict in H. apply ok_inj in H. subst out.
      eexists. split; [reflexivity | ]. split.
      + intros f s Hf L. cbn in Hf.
        repeat (destruct Hf as [<- | Hf]; [trimmed_field L | ]). destruct Hf.
      + intros l s L. pruned_field L.
    - rewrite normalize_execution_environment_dict in H. apply ok_inj in H. subst out.
      eexists. split; [reflexivity | ]. split.
      + intros f s Hf L. cbn in Hf.
        repeat (destruct Hf as [<- | Hf]; [trimmed_field L | ]). destruct Hf.
      + intros l s L. pruned_field L. }
  destruct P as (p & -> & P1 & P2). repeat split; assumption.
Qed.

Lemma stripped_fields_trimmed_witness :
  (forall f s,
      In f STRIPPED_FIELDS ->
      lookup_field padded_described_template_canonical f = Some (VStr s) ->
      trimmed s = true)
  /\ (forall l s,
        lookup_field padded_described_template_canonical "credentials"
        = Some (VList l) ->
        In (VStr s) l -> trimmed s = true)
  /\ (forall v,
        JobTemplate <> Organization ->
        JobTemplate <> ExecutionEnvironment ->
        getf padded_described_template "description" = Ok v ->
        truthy v = true ->
        lookup_field padded_described_template_canonical "description"
        = Some v).
Proof.
  apply (stripped_fields_trimmed JobTemplate padded_described_template).
  reflexivity.
Defined.

(** ** The sparse-record invariant *)

(** Every normalizer but [normalize_org] returns a record without a field
    that is [None], an empty mapping or an empty sequence. *)
Lemma sparse_record_invariant (k : kind) (r out : value) :
  k <> Organization ->
  normalizer k r = Ok out ->
  exists p,
    out = VDict p
    /\ forall key v, In (key, v) p ->
         v <> VNone /\ v <> VDict [] /\ v <> VList [].
Proof.
  intros Hk H. destruct (normalizer_ok_dict k r out H) as [d ->].
  assert (P : exists payload, out = VDict (prune payload)).
  { destruct k; cbn [normalizer] in H.
    - contradiction.
    - apply normalize_credential_inv in H.
      destruct H as (ctn & inputs & _ & _ & _ & ->). eauto.
    - rewrite normalize_project_dict in H. apply ok_inj in H. eauto.
    - rewrite normalize_inventory_dict in H. apply ok_inj in H. eauto.
    - rewrite normalize_job_template_dict in H.
      destruct (py_iter _) as [items | e]; cbn [bind] in H; [ | discriminate].
      apply ok_inj in H. eauto.
    - rewrite normalize_workflow_template_dict in H. apply ok_inj in H. eauto.
    - rewrite normalize_execution_environment_dict in H. apply ok_inj in H.
      eauto. }
  destruct P as (payload & ->). eexists. split; [reflexivity | ].
  intros key v Hin. apply In_prune in Hin. destruct Hin as [_ E].
  rewrite <- not_true_iff_false, is_empty_spec in E. tauto.
Qed.

(** C2 fails on organizations: [normalize_org] returns its two fields
    unfiltered, so a record without a name comes back with [name] set to
    [None]. *)
Theorem organization_null_name_kept :
  normalizer Organization unnamed_organization
  = Ok (VDict [ field "name" VNone; field "state" (VStr "present") ])
  /\ py_in VNone [VNone; VDict []; VList []] = true.
Proof. split; reflexivity. Qed.

(** ** Normalizing a canonical record again *)

Lemma squash_squash (v : value) : squash (squash v) = squash v.
Proof. unfold squash. destruct (is_empty v) eqn:E; [reflexivity | now rewrite E]. Qed.

Lemma squash_truthy (v : value) : truthy v = true -> squash v = v.
Proof. intros H. unfold squash. now rewrite (truthy_not_empty v H). Qed.

Lemma dget_prune_squash (p : dict) (k : string) :
  str_keys_distinct p = true ->
  dget (prune p) k
  = match dict_lookup (KStr k) p with
    | Some v => squash v
    | None => VNone
    end.
Proof. apply dget_prune. Qed.

Lemma dget_or_prune (p : dict) (k : string) (dflt : value) :
  str_keys_distinct p = true ->
  dget_or (prune p) k dflt
  = match dict_lookup (KStr k) p with
    | Some v => if is_empty v then dflt else v
    | None => dflt
    end.
Proof.
  intros H. unfold dget_or. rewrite (lookup_prune p k H).
  destruct (dict_lookup (KStr k) p) as [v | ]; [ | reflexivity].
  destruct (is_empty v); reflexivity.
Qed.

Lemma prune_cons_congr (k : key) (v v' : value) (p p' : dict) :
  squash v' = squash v ->
  prune p' = prune p ->
  prune ((k, v') :: p') = prune ((k, v) :: p).
Proof.
  unfold squash. intros Hv Hp. unfold prune in *. cbn [filter snd].
  rewrite Hp.
  destruct (is_empty v) eqn:E, (is_empty v') eqn:E'; cbn [negb];
    try reflexivity; subst; cbn in *; congruence.
Qed.

Lemma stripped_squash_idem (x : value) :
  squash (stripped_of (squash (stripped_of x))) = squash (stripped_of x).
Proof.
  destruct x as [ | | | | s | [ | ] | [ | ] ]; try reflexivity.
  cbn. unfold squash. cbn. now rewrite strip_idem.
Qed.

Lemma py_or_squash_idem (x dflt : value) :
  squash (py_or (squash (py_or x dflt)) dflt) = squash (py_or x dflt).
Proof.
  f_equal. unfold py_or. destruct (truthy x) eqn:T.
  - rewrite (squash_truthy x T). now rewrite T.
  - unfold squash. destruct (is_empty dflt); cbn [truthy];
      [reflexivity | now destruct (truthy dflt)].
Qed.

Lemma ref_value_fixed (n : value) :
  is_empty (ref_value n) = true \/ nonempty_str (ref_value n) = true ->
  squash (ref_value (name_of (squash (ref_value n)))) = squash (ref_value n).
Proof.
  unfold ref_value. destruct (truthy n) eqn:T; [ | reflexivity].
  destruct n as [ | | | | s | | ]; cbn [stripped_of];
    try (intros [E | E]; [rewrite (truthy_not_empty _ T) in E | ];
         discriminate E).
  intros [E | E]; [discriminate E | ]. cbn [nonempty_str] in E.
  unfold squash. cbn [is_empty name_of truthy]. rewrite E.
  cbn [stripped_of]. now rewrite strip_idem.
Qed.

Lemma ref_value_or_none (y : value) :
  ref_value (py_or y (name_of VNone)) = ref_value y.
Proof. unfold ref_value, py_or. now destruct (truthy y) eqn:T; [rewrite T | ]. Qed.

Lemma ref_ok_pruned (p : dict) (f : string) (v : value) :
  str_keys_distinct p = true ->
  dict_lookup (KStr f) p = Some v ->
  ref_ok (VDict (prune p)) f = true ->
  is_empty v = true \/ nonempty_str v = true.
Proof.
  intros Hp Hl. unfold ref_ok. cbn [lookup_field].
  rewrite (lookup_prune p f Hp), Hl.
  destruct (is_empty v); auto.
Qed.

Lemma nonempty_stripped (x : value) :
  nonempty_str (stripped_of x) = true ->
  name_of (stripped_of x) = stripped_of x
  /\ truthy (stripped_of x) = true
  /\ stripped_of (stripped_of x) = stripped_of x.
Proof.
  destruct x; cbn; try discriminate.
  intros H. rewrite H, strip_idem. auto.
Qed.

Lemma names_of_stripped (xs : list value) :
  forallb nonempty_str (map stripped_of xs) = true ->
  names_of (map stripped_of xs) = map stripped_of xs.
Proof.
  induction xs as [ | x xs IH]; [reflexivity | ].
  cbn [map forallb]. intros H. apply andb_prop in H. destruct H as [Hx Hxs].
  destruct (nonempty_stripped x Hx) as (N & T & S).
  unfold names_of in *. cbn [map filter]. rewrite N, T. cbn [map].
  rewrite S. f_equal. exact (IH Hxs).
Qed.

Lemma names_of_fixed (items : list value) :
  forallb nonempty_str (names_of items) = true ->
  names_of (names_of items) = names_of items.
Proof. unfold names_of at 1 3 4. apply names_of_stripped. Qed.

Lemma credentials_ok_pruned (p : dict) (names : list value) :
  str_keys_distinct p = true ->
  dict_lookup (KStr "credentials") p = Some (VList names) ->
  credentials_ok (VDict (prune p)) = true ->
  forallb nonempty_str names = true.
Proof.
  intros Hp Hl. unfold credentials_ok. cbn [lookup_field].
  rewrite (lookup_prune p _ Hp), Hl.
  destruct names; [reflexivity | ]. cbn [is_empty]. auto.
Qed.

Lemma iter_squashed_list (names : list value) :
  py_iter (py_or (squash (VList names)) (VList [])) = Ok names.
Proof. destruct names; reflexivity. Qed.

Lemma or_squashed_dict (i : dict) :
  py_or (squash (VDict i)) (VDict []) = VDict i.
Proof. destruct i; reflexivity. Qed.

Lemma project_scm_type_truthy (d : dict) : truthy (project_scm_type d) = true.
Proof.
  unfold project_scm_type.
  destruct (truthy (dget d "scm_type")) eqn:T; [exact T | ].
  destruct (truthy (dget d "scm_url")); reflexivity.
Qed.

Ltac read_back :=
  rewrite ?dget_prune_squash, ?dget_or_prune by reflexivity;
  payload_lookup.

Ltac same_fields :=
  repeat (apply prune_cons_congr;
          [ first [ reflexivity
                  | apply stripped_squash_idem
                  | apply py_or_squash_idem
                  | apply squash_squash
                  | apply ref_value_fixed; assumption
                  | idtac ]
          | ]);
  try reflexivity.

Ltac ref_fact H :=
  eapply ref_ok_pruned in H; [ | reflexivity | reflexivity].

Lemma org_again (d : dict) : org_payload (org_payload d) = org_payload d.
Proof.
  unfold org_payload at 1 3. unfold dget at 1. payload_lookup.
  now rewrite stripped_of_idem.
Qed.

Lemma project_again (d : dict) :
  ref_ok (VDict (prune (project_payload d))) "organization" = true ->
  prune (project_payload (prune (project_payload d)))
  = prune (project_payload d).
Proof.
  intros Ho. ref_fact Ho.
  unfold project_payload at 1 3. unfold ref_field, project_scm_type, field in *.
  read_back. unfold ref_field, field in *.
  same_fields.
  fold (project_scm_type d).
  pose proof (project_scm_type_truthy d) as T.
  rewrite !(squash_truthy _ T), T.
  now rewrite ?(squash_truthy _ T).
Qed.

Lemma inventory_again (d : dict) :
  ref_ok (VDict (prune (inventory_payload d))) "organization" = true ->
  prune (inventory_payload (prune (inventory_payload d)))
  = prune (inventory_payload d).
Proof.
  intros Ho. ref_fact Ho.
  unfold inventory_payload at 1 3. unfold ref_field, field in *.
  read_back. unfold ref_field, field in *.
  same_fields.
Qed.

Lemma workflow_again (d : dict) :
  ref_ok (VDict (prune (workflow_payload d))) "organization" = true ->
  prune (workflow_payload (prune (workflow_payload d)))
  = prune (workflow_payload d).
Proof.
  intros Ho. ref_fact Ho.
  unfold workflow_payload at 1 3. unfold ref_field, field in *.
  read_back. unfold ref_field, field in *.
  same_fields.
Qed.

Lemma execution_environment_again (d : dict) :
  ref_ok (VDict (prune (execution_environment_payload d))) "organization"
  = true ->
  kind_ok ExecutionEnvironment (VDict (prune (execution_environment_payload d)))
  = true ->
  prune (execution_environment_payload (prune (execution_environment_payload d)))
  = prune (execution_environment_payload d).
Proof.
  intros Ho Hp. ref_fact Ho.
  cbn [kind_ok lookup_field] in Hp. rewrite lookup_prune in Hp by reflexivity.
  payload_lookup_in Hp.
  unfold execution_environment_payload at 1 3. unfold ref_field, field in *.
  read_back. unfold ref_field, field in *.
  destruct (is_empty (dget_or d "pull" (VStr "missing"))); [discriminate Hp | ].
  same_fields.
Qed.

Lemma job_template_again (d : dict) (items : list value) :
  let out := VDict (prune (job_template_payload d items)) in
  forallb (ref_ok out) REFERENCE_FIELDS = true ->
  credentials_ok out = true ->
  prune (job_template_payload (prune (job_template_payload d items))
           (names_of items))
  = prune (job_template_payload d items).
Proof.
  intros out Hr Hc. subst out. cbn [forallb REFERENCE_FIELDS] in Hr.
  apply andb_prop in Hr. destruct Hr as [Ho Hr].
  apply andb_prop in Hr. destruct Hr as [Hp Hr].
  apply andb_prop in Hr. destruct Hr as [Hi Hr].
  apply andb_prop in Hr. destruct Hr as [He _].
  ref_fact Ho. ref_fact Hp. ref_fact Hi. ref_fact He.
  eapply credentials_ok_pruned in Hc; [ | reflexivity | reflexivity].
  unfold job_template_payload at 1 3. unfold ref_field, field in *.
  read_back. unfold ref_field, field in *.
  rewrite (names_of_fixed items Hc).
  same_fields.
Qed.

Lemma credential_again (d : dict) (org label : value) (inputs : dict) :
  let p := credential_payload d org label (pop_sensitive inputs) in
  ref_ok (VDict (prune p)) "organization" = true ->
  kind_ok Credential (VDict (prune p)) = true ->
  normalize_credential (VDict (prune p)) = Ok (VDict (prune p)).
Proof.
  intros p Ho Hk. subst p. ref_fact Ho.
  cbn [kind_ok lookup_field] in Hk. rewrite lookup_prune in Hk by reflexivity.
  payload_lookup_in Hk.
  destruct (is_empty label) eqn:El; [clear Hk | discriminate Hk].
  rewrite normalize_credential_dict. unfold credential_org.
  read_back. unfold squash at 1. rewrite El.
  rewrite or_squashed_dict.
  cbn [py_or truthy getf py_get dict_get to_key dict_lookup bind py_dict
       CREDTYPE_MAP key_eqb key_num].
  do 2 f_equal.
  unfold credential_payload at 1 3. unfold field in *.
  read_back. unfold field in *.
  rewrite ref_value_or_none, pop_sensitive_idem.
  same_fields.
  unfold squash. now rewrite El.
Qed.

(** C4, as stated, fails: the canonical record of a credential holds its
    type as a string, where the normalizer reads a nested object, so the
    second application raises. *)
Lemma typed_credential_not_renormalizable :
  exists out,
    normalizer Credential vault_credential = Ok out
    /\ normalizer Credential out = Raise AttributeError
    /\ normalizer Credential out <> Ok out.
Proof.
  exists vault_credential_canonical.
  split; [reflexivity | ]. split; [reflexivity | discriminate].
Qed.

(** C4, amended: a normalizer returns its own output unchanged whenever that
    output holds a non-empty string in each reference field it has
    ([organization], [project], [inventory], [execution_environment]) and in
    each entry of [credentials], has no [credential_type] when it is a
    credential, and has a [pull] when it is an execution environment. *)
Theorem canonical_record_renormalizes (k : kind) (r out : value) :
  normalizer k r = Ok out ->
  canonical_shaped k out = true ->
  normalizer k out = Ok out.
Proof.
  intros H C. destruct (normalizer_ok_dict k r out H) as [d ->].
  unfold canonical_shaped in C.
  apply andb_prop in C. destruct C as [C Hk].
  apply andb_prop in C. destruct C as [Hr Hc].
  assert (Ho : ref_ok out "organization" = true).
  { cbn [forallb REFERENCE_FIELDS] in Hr. now apply andb_prop in Hr. }
  destruct k; cbn [normalizer] in *.
  - rewrite normalize_org_dict in H. apply ok_inj in H. subst out.
    now rewrite normalize_org_dict, org_again.
  - apply normalize_credential_inv in H.
    destruct H as (ctn & inputs & _ & _ & _ & ->).
    now apply credential_again.
  - rewrite normalize_project_dict in H. apply ok_inj in H. subst out.
    now rewrite normalize_project_dict, project_again.
  - rewrite normalize_inventory_dict in H. apply ok_inj in H. subst out.
    now rewrite normalize_inventory_dict, inventory_again.
  - rewrite normalize_job_template_dict in H.
    destruct (py_iter _) as [items | e]; cbn [bind] in H; [ | discriminate].
    apply ok_inj in H. subst out.
    rewrite normalize_job_template_dict.
    rewrite dget_prune_squash by reflexivity. payload_lookup.
    rewrite iter_squashed_list. cbn [bind].
    now rewrite job_template_again.
  - rewrite normalize_workflow_template_dict in H. apply ok_inj in H.
    subst out.
    now rewrite normalize_workflow_template_dict, workflow_again.
  - rewrite normalize_execution_environment_dict in H. apply ok_inj in H.
    subst out.
    now rewrite normalize_execution_environment_dict,
      execution_environment_again.
Qed.

Lemma canonical_record_renormalizes_witness :
  normalizer JobTemplate padded_job_template_canonical
  = Ok padded_job_template_canonical.
Proof.
  apply (canonical_record_renormalizes JobTemplate padded_job_template).
  - reflexivity.
  - reflexivity.
Defined.

(** The conditions are needed: a blank reference is written as the empty
    string and dropped by the next pass, and a null [pull] is dropped and
    defaulted by the next pass. *)
Lemma blank_reference_lost :
  exists out out',
    normalizer Project blank_organization_project = Ok out
    /\ lookup_field out "organization" = Some (VStr "")
    /\ normalizer Project out = Ok out'
    /\ lookup_field out' "organization" = None.
Proof. do 2 eexists. repeat split. Qed.

Lemma null_pull_defaulted :
  exists out out',
    normalizer ExecutionEnvironment null_pull_environment = Ok out
    /\ lookup_field out "pull" = None
    /\ normalizer ExecutionEnvironment out = Ok out'
    /\ lookup_field out' "pull" = Some (VStr "missing").
Proof. do 2 eexists. repeat split. Qed.

(* ================================================================= *)
(** * Further properties *)

(** ** [_stripped] *)

Lemma lstrip_split (s : string) :
  exists pre, s = pre ++ lstrip s /\ all_space pre = true.
Proof.
  induction s as [ | c s (pre & E & A)]; [now exists "" | ].
  cbn [lstrip]. destruct (isspace c) eqn:W.
  - exists (String c pre). cbn. rewrite W, A. now rewrite <- E.
  - now exists "".
Qed.

Lemma rstrip_split (s : string) :
  exists post, s = rstrip s ++ post /\ all_space post = true.
Proof.
  induction s as [ | c s (post & E & A)]; [now exists "" | ].
  cbn [rstrip]. destruct (rstrip s) as [ | c2 r2].
  - cbn in E. subst post. destruct (isspace c) eqn:W.
    + exists (String c s). cbn. now rewrite W, A.
    + now exists s.
  - exists post. cbn. now rewrite E at 1.
Qed.

Lemma strip_split (s : string) :
  exists pre post,
    s = pre ++ strip s ++ post
    /\ all_space pre = true /\ all_space post = true.
Proof.
  destruct (lstrip_split s) as (pre & E & A).
  destruct (rstrip_split (lstrip s)) as (post & E' & A').
  exists pre, post. unfold strip. now rewrite <- E', <- E.
Qed.

(** X1: [_stripped] never raises, applying it twice gives what applying it
    once gives, a value that is not a string comes back unchanged, and a
    string comes back without whitespace at its ends and otherwise intact:
    the original is the result between two runs of whitespace. *)
Theorem stripped_only_trims (v : value) :
  exists v',
    _stripped v = Ok v'
    /\ _stripped v' = Ok v'
    /\ match v with
       | VStr s =>
           exists pre t post,
             v' = VStr t
             /\ s = pre ++ t ++ post
             /\ all_space pre = true /\ all_space post = true
             /\ trimmed t = true
       | _ => v' = v
       end.
Proof.
  exists (stripped_of v). rewrite !stripped_eval, stripped_of_idem.
  split; [reflexivity | ]. split; [reflexivity | ].
  destruct v as [ | | | | s | | ]; try reflexivity.
  destruct (strip_split s) as (pre & post & E & A & A').
  exists pre, (strip s), post. cbn [stripped_of].
  repeat split; auto using strip_trimmed.
Qed.

(** ** Where the normalizers return *)

(** X2: a record that is not a mapping makes every normalizer raise
    [AttributeError]; on a mapping, the normalizers of organizations,
    projects, inventories, workflow templates and execution environments
    always return. *)
Theorem normalizer_domain (k : kind) (r : value) :
  match r with
  | VDict _ =>
      match k with
      | Credential | JobTemplate => True
      | _ => exists out, normalizer k r = Ok out
      end
  | _ => normalizer k r = Raise AttributeError
  end.
Proof.
  destruct r as [ | | | | | | d]; try (destruct k; reflexivity).
  destruct k; cbn [normalizer]; try exact I.
  - rewrite normalize_org_dict. eauto.
  - rewrite normalize_project_dict. eauto.
  - rewrite normalize_inventory_dict. eauto.
  - rewrite normalize_workflow_template_dict. eauto.
  - rewrite normalize_execution_environment_dict. eauto.
Qed.

(** X3: on a mapping, [normalize_job_template] returns when [credentials] is
    absent, falsy, or a list, string or mapping, and raises [TypeError]
    when it is a non-zero number or [True]. *)
Theorem job_template_domain (d : dict) :
  let c := dget d "credentials" in
  if negb (truthy c) || iterable c
  then exists out, normalize_job_template (VDict d) = Ok out
  else normalize_job_template (VDict d) = Raise TypeError.
Proof.
  cbn zeta. rewrite normalize_job_template_dict. unfold py_or.
  destruct (dget d "credentials") as [ | [ | ] | z | f | s | l | i ];
    cbn [truthy negb orb iterable py_iter bind]; eauto.
  - destruct (z =? 0)%Z; cbn [negb orb py_iter bind]; eauto.
  - destruct f; cbn [negb orb py_iter bind]; eauto.
  - destruct (String.eqb s ""); cbn [negb orb py_iter bind]; eauto.
  - destruct l; cbn [negb orb py_iter bind]; eauto.
  - destruct i; cbn [negb orb py_iter bind]; eauto.
Qed.

(** X4: a credential whose [credential_type] is truthy and not a mapping,
    such as the numeric id of the type, makes [normalize_credential] raise
    [AttributeError]. *)
Theorem credential_type_not_mapping_raises (d : dict) :
  truthy (dget d "credential_type") = true ->
  isinstance_dict (dget d "credential_type") = false ->
  normalize_credential (VDict d) = Raise AttributeError.
Proof.
  intros T D. rewrite normalize_credential_dict. unfold py_or. rewrite T.
  destruct (dget d "credential_type"); try discriminate D; reflexivity.
Qed.

Lemma credential_type_not_mapping_raises_witness :
  normalize_credential (VDict numeric_type_credential) = Raise AttributeError.
Proof.
  apply (credential_type_not_mapping_raises numeric_type_credential);
    reflexivity.
Defined.

(** X5: [normalize_credential] returns on every mapping whose
    [credential_type] is absent, falsy or a mapping, whose type label (the
    name of that mapping, else [kind]) is hashable, and whose [inputs] is
    absent, falsy or a mapping. *)
Theorem credential_returns (d : dict) :
  let ct := py_or (dget d "credential_type") (VDict []) in
  isinstance_dict ct = true ->
  to_key (py_or (name_of ct) (dget d "kind")) <> None ->
  isinstance_dict (py_or (dget d "inputs") (VDict [])) = true ->
  exists out, normalize_credential (VDict d) = Ok out.
Proof.
  cbn zeta. intros D K I. rewrite normalize_credential_dict.
  destruct (py_or (dget d "credential_type") (VDict [])) as [ | | | | | | c];
    try discriminate D.
  rewrite getf_dict. cbn [bind]. cbn zeta. rewrite credtype_get.
  cbn [name_of] in K.
  destruct (to_key (py_or (dget c "name") (dget d "kind")));
    [ | contradiction]. cbn [bind].
  destruct (py_or (dget d "inputs") (VDict [])); try discriminate I.
  cbn [py_dict bind]. eauto.
Qed.

Lemma credential_returns_witness :
  exists out, normalize_credential (VDict bare_credential) = Ok out.
Proof.
  apply (credential_returns bare_credential).
  - reflexivity.
  - discriminate.
  - reflexivity.
Defined.

(** ** What a returned record holds *)

Lemma normalizer_payload (k : kind) (d : dict) (out : value) :
  normalizer k (VDict d) = Ok out ->
  match k with
  | Organization => out = VDict (org_payload d)
  | Credential =>
      exists ctn inputs,
        getf (py_or (dget d "credential_type") (VDict [])) "name" = Ok ctn
        /\ py_dict (py_or (dget d "inputs") (VDict [])) = Ok inputs
        /\ out = VDict (prune (credential_payload d (credential_org d)
                                 (py_or ctn (dget d "kind"))
                                 (pop_sensitive inputs)))
  | Project => out = VDict (prune (project_payload d))
  | Inventory => out = VDict (prune (inventory_payload d))
  | JobTemplate =>
      exists items,
        py_iter (py_or (dget d "credentials") (VList [])) = Ok items
        /\ out = VDict (prune (job_template_payload d items))
  | WorkflowTemplate => out = VDict (prune (workflow_payload d))
  | ExecutionEnvironment =>
      out = VDict (prune (execution_environment_payload d))
  end.
Proof.
  intros H. destruct k; cbn [normalizer] in H.
  - rewrite normalize_org_dict in H. now apply ok_inj in H.
  - apply normalize_credential_inv in H.
    destruct H as (ctn & inputs & Hn & _ & Hi & ->). eauto.
  - rewrite normalize_project_dict in H. now apply ok_inj in H.
  - rewrite normalize_inventory_dict in H. now apply ok_inj in H.
  - rewrite normalize_job_template_dict in H.
    destruct (py_iter _) as [items | e]; cbn [bind] in H; [ | discriminate].
    apply ok_inj in H. eauto.
  - rewrite normalize_workflow_template_dict in H. now apply ok_inj in H.
  - rewrite normalize_execution_environment_dict in H. now apply ok_inj in H.
Qed.

(** Splits on the kind and names the payload of the returned record. *)
Ltac by_payload H :=
  match type of H with
  | normalizer ?k (VDict ?d) = Ok ?out =>
      apply normalizer_payload in H; destruct k;
      [ subst out
      | let ctn := fresh "ctn" in
        let inputs := fresh "inputs" in
        let Hn := fresh "Hn" in
        let Hi := fresh "Hi" in
        destruct H as (ctn & inputs & Hn & Hi & ->)
      | subst out
      | subst out
      | let items := fresh "items" in
        let Hit := fresh "Hit" in
        destruct H as (items & Hit & ->)
      | subst out
      | subst out ]
  end.

Ltac field_of_payload :=
  cbn [lookup_field]; try (rewrite lookup_prune by reflexivity);
  payload_lookup.

(** X6: every record a normalizer returns has [state] set to [present]. *)
Theorem state_is_present (k : kind) (r out : value) :
  normalizer k r = Ok out ->
  lookup_field out "state" = Some (VStr "present").
Proof.
  intros H. destruct (normalizer_ok_dict k r out H) as [d ->].
  by_payload H; field_of_payload; reflexivity.
Qed.

Lemma state_is_present_witness :
  lookup_field padded_job_template_canonical "state" = Some (VStr "present").
Proof.
  apply (state_is_present JobTemplate padded_job_template). reflexivity.
Defined.

Ltac payload_key Hin :=
  cbn [org_payload credential_payload project_payload inventory_payload
       job_template_payload workflow_payload execution_environment_payload
       field In] in Hin;
  repeat (destruct Hin as [Hin | Hin];
          [ injection Hin as <- _; eexists; split;
            [reflexivity | cbn; tauto]
          | ]);
  destruct Hin.

(** X7: the keys of a returned record are among the fields of its kind:
    whatever else the raw record holds, identifiers included, is left
    out. *)
Theorem canonical_fields_only (k : kind) (r out : value)
    (key : key) (v : value) :
  normalizer k r = Ok out ->
  In (key, v) (items_of out) ->
  exists f, key = KStr f /\ In f (CANONICAL_FIELDS k).
Proof.
  intros H Hin. destruct (normalizer_ok_dict k r out H) as [d ->].
  by_payload H; cbn [items_of] in Hin;
    try (apply In_prune in Hin; destruct Hin as [Hin _]);
    payload_key Hin.
Qed.

Lemma canonical_fields_only_witness :
  exists f, KStr "project" = KStr f /\ In f (CANONICAL_FIELDS JobTemplate).
Proof.
  apply (canonical_fields_only JobTemplate padded_job_template
           padded_job_template_canonical (KStr "project") (VStr "Web")).
  - reflexivity.
  - cbn. tauto.
Defined.

(** X8: a field the raw record lacks is written with its default: the empty
    description, [scm_branch] [main], both project flags true, inventory
    [kind] [normal], [job_type] [run], [survey_enabled] false, the empty
    [limit], [verbosity] 0, and [pull] [missing]. *)
Theorem absent_field_defaulted (k : kind) (d : dict) (out : value)
    (f : string) (dv : value) :
  normalizer k (VDict d) = Ok out ->
  In (f, dv) (DEFAULTS k) ->
  dict_lookup (KStr f) d = None ->
  lookup_field out f = Some dv.
Proof.
  intros H Hin Hd.
  by_payload H; cbn [DEFAULTS In] in Hin;
    repeat (destruct Hin as [Hin | Hin];
            [ injection Hin as <- <-; field_of_payload;
              unfold dget, dget_or; rewrite Hd; reflexivity
            | ]);
    destruct Hin.
Qed.

Lemma absent_field_defaulted_witness :
  lookup_field web_project_canonical "scm_branch" = Some (VStr "main").
Proof.
  apply (absent_field_defaulted Project
           [ field "name" (VStr " Web ");
             field "scm_url" (VStr "https://x/y.git") ]).
  - reflexivity.
  - cbn. tauto.
  - reflexivity.
Defined.

(** X9: when the raw [inputs] is a mapping, the [inputs] of the returned
    credential are its items whose key is not sensitive, in their order and
    with their values as they were, nested ones included; the field is
    left out when no item remains. *)
Theorem credential_inputs_kept (d i : dict) (out : value) :
  dict_lookup (KStr "inputs") d = Some (VDict i) ->
  normalize_credential (VDict d) = Ok out ->
  lookup_field out "inputs"
  = match filter not_sensitive i with
    | [] => None
    | kept => Some (VDict kept)
    end.
Proof.
  intros Hd H. apply normalize_credential_inv in H.
  destruct H as (ctn & inputs & _ & _ & Hi & ->).
  unfold dget in Hi. rewrite Hd, py_or_dict_empty in Hi.
  cbn [py_dict] in Hi. apply ok_inj in Hi. subst inputs.
  field_of_payload. unfold pop_sensitive. rewrite pop_keys_filter.
  fold not_sensitive.
  change (fun kv : key * value =>
            negb (existsb (fun s => key_eqb (fst kv) (KStr s)) SENSITIVE_KEYS))
    with not_sensitive.
  destruct (filter not_sensitive i); reflexivity.
Qed.

Lemma credential_inputs_kept_witness :
  lookup_field vault_credential_canonical "inputs"
  = match filter not_sensitive
            [ field "username" (VStr "deploy"); field "password" (VStr "x") ]
    with
    | [] => None
    | kept => Some (VDict kept)
    end.
Proof.
  apply (credential_inputs_kept
           [ field "name" (VStr " Vault Cred ");
             field "credential_type" (VDict [ field "name" (VStr "Machine") ]);
             field "inputs" (VDict [ field "username" (VStr "deploy");
                                     field "password" (VStr "x") ]) ]).
  - reflexivity.
  - reflexivity.
Defined.

Lemma name_of_unresolvable (v : value) :
  unresolvable v = true -> name_of v = VNone.
Proof. destruct v; cbn; try discriminate; reflexivity. Qed.

(** X10: a reference the raw record gives as neither a mapping nor a
    string, such as a numeric id or null, is left out of the returned
    record (for a credential, when [organization_id] is no mapping or
    string either). *)
Theorem unresolvable_reference_omitted (k : kind) (d : dict) (out : value)
    (f : string) :
  normalizer k (VDict d) = Ok out ->
  In f REFERENCE_FIELDS ->
  unresolvable (dget d f) = true ->
  (k = Credential -> unresolvable (dget d "organization_id") = true) ->
  lookup_field out f = None.
Proof.
  intros H Hf U Uid. apply name_of_unresolvable in U.
  assert (Uid' : k = Credential -> name_of (dget d "organization_id") = VNone).
  { intros E. now apply name_of_unresolvable, Uid. }
  clear Uid.
  by_payload H; cbn [REFERENCE_FIELDS In] in Hf;
    repeat (destruct Hf as [<- | Hf];
            [ field_of_payload; unfold ref_field, credential_org;
              try rewrite U; try rewrite (Uid' eq_refl); reflexivity
            | ]);
    destruct Hf.
Qed.

Lemma unresolvable_reference_omitted_witness :
  lookup_field
    (VDict [ field "name" (VStr "hosts"); field "description" (VStr "");
             field "kind" (VStr "normal"); field "state" (VStr "present") ])
    "organization" = None.
Proof.
  apply (unresolvable_reference_omitted Inventory id_reference_inventory).
  - reflexivity.
  - cbn. tauto.
  - reflexivity.
  - discriminate.
Defined.

(** ** The orchestrator *)

Lemma normalize_each_ok (f : value -> result value) (raws outs : list value) :
  normalize_each f raws = Ok outs ->
  Forall2 (fun r o => f r = Ok o) raws outs.
Proof.
  revert outs. induction raws as [ | r raws IH]; intros outs; cbn.
  - intros H. apply ok_inj in H. subst. constructor.
  - destruct (f r) as [o | e] eqn:E; cbn [bind]; [ | discriminate].
    destruct (normalize_each f raws) as [os | e]; cbn [bind]; [ | discriminate].
    intros H. apply ok_inj in H. subst. constructor; auto.
Qed.

Lemma load_and_normalize_ok (fs : string -> export_file) (k : kind)
    (outs : list value) :
  load_and_normalize fs (normalizer k) (resource_of k) = Ok outs ->
  exists raws,
    raw_records fs k = Ok raws
    /\ Forall2 (fun r o => normalizer k r = Ok o) raws outs.
Proof.
  unfold load_and_normalize, raw_records.
  destruct (_load_json fs (resource_of k)) as [doc | e]; cbn [bind];
    [ | discriminate].
  destruct (py_iter doc) as [raws | e]; cbn [bind]; [ | discriminate].
  intros H. exists raws. split; [reflexivity | now apply normalize_each_ok].
Qed.

(** The ways [main] ends: the export directory is missing; loading or
    normalizing raises; every write goes through; or a write raises after
    the earlier ones went through. *)
Lemma main_cases (export_exists : bool) (fs : string -> export_file)
    (io : disk) :
  (export_exists = false
   /\ Transform.main export_exists fs io [] = ([], Ok 2%Z))
  \/ (exists e, Transform.main export_exists fs io [] = ([], Raise e))
  \/ exists lists : kind -> list value,
       (forall k, load_and_normalize fs (normalizer k) (resource_of k)
                  = Ok (lists k))
       /\ let docs :=
            map (fun k => (output_file k,
                           VDict [ field (top_key k) (VList (lists k)) ]))
              ALL_KINDS in
          Transform.main export_exists fs io [] = (docs, Ok 0%Z)
          \/ exists n e,
               n < 7
               /\ Transform.main export_exists fs io []
                  = (firstn n docs, Raise e).
Proof.
  unfold Transform.main. destruct export_exists; cbn [negb];
    [ | left; split; reflexivity].
  right. unfold pbind, lift.
  destruct (load_and_normalize fs normalize_org _) as [orgs | e] eqn:E1;
    [ | left; eauto].
  destruct (load_and_normalize fs normalize_credential _) as [creds | e] eqn:E2;
    [ | left; eauto].
  destruct (load_and_normalize fs normalize_project _) as [projs | e] eqn:E3;
    [ | left; eauto].
  destruct (load_and_normalize fs normalize_inventory _) as [invs | e] eqn:E4;
    [ | left; eauto].
  destruct (load_and_normalize fs normalize_job_template _) as [tmps | e] eqn:E5;
    [ | left; eauto].
  destruct (load_and_normalize fs normalize_workflow_template _)
    as [wfts | e] eqn:E6; [ | left; eauto].
  destruct (load_and_normalize fs normalize_execution_environment _)
    as [ees | e] eqn:E7; [ | left; eauto].
  right.
  exists (fun k => match k with
                   | Organization => orgs
                   | Credential => creds
                   | Project => projs
                   | Inventory => invs
                   | JobTemplate => tmps
                   | WorkflowTemplate => wfts
                   | ExecutionEnvironment => ees
                   end).
  split; [intros []; assumption | ]. cbn zeta. unfold _write_yaml.
  destruct (io "controller_organizations.yml" _) as [[] | e];
    [ | right; exists 0, e; split; [lia | reflexivity]].
  destruct (io "controller_credentials.yml" _) as [[] | e];
    [ | right; exists 1, e; split; [lia | reflexivity]].
  destruct (io "controller_projects.yml" _) as [[] | e];
    [ | right; exists 2, e; split; [lia | reflexivity]].
  destruct (io "controller_inventories.yml" _) as [[] | e];
    [ | right; exists 3, e; split; [lia | reflexivity]].
  destruct (io "controller_templates.yml" _) as [[] | e];
    [ | right; exists 4, e; split; [lia | reflexivity]].
  destruct (io "controller_workflows.yml" _) as [[] | e];
    [ | right; exists 5, e; split; [lia | reflexivity]].
  destruct (io "controller_execution_environments.yml" _) as [[] | e];
    [ | right; exists 6, e; split; [lia | reflexivity]].
  left. reflexivity.
Qed.




(** A disk that fills up at the third file leaves the first two written. *)
Lemma earlier_files_stay_written :
  Transform.main true web_export disk_full_at_projects []
  = ([ ("controller_organizations.yml",
        VDict [ field "controller_organizations" (VList []) ]);
       ("controller_credentials.yml",
        VDict [ field "controller_credentials" (VList []) ]) ],
     Raise OSError).
Proof. reflexivity. Qed.

(** X12: when [main] returns 0, the file of each kind holds, under the
    top-level key of the kind, the list of the normalized records of that
    kind: one per raw record, in the order of the raw records. *)
Theorem main_writes_normalized_records (export_exists : bool)
    (fs : string -> export_file) (io : disk) (w : written) (k : kind) :
  Transform.main export_exists fs io [] = (w, Ok 0%Z) ->
  exists raws outs,
    raw_records fs k = Ok raws
    /\ Forall2 (fun r o => normalizer k r = Ok o) raws outs
    /\ assoc (output_file k) w
       = Some (VDict [ field (top_key k) (VList outs) ]).
Proof.
  intros H.
  destruct (main_cases export_exists fs io)
    as [[_ E] | [(e & E) | (lists & L & [E | (n & e & _ & E)])]];
    rewrite E in H; try discriminate H.
  injection H as <-.
  destruct (load_and_normalize_ok fs k (lists k) (L k)) as (raws & R & F).
  exists raws, (lists k). split; [exact R | ]. split; [exact F | ].
  destruct k; reflexivity.
Qed.

Lemma main_writes_normalized_records_witness :
  exists raws outs,
    raw_records web_export Project = Ok raws
    /\ Forall2 (fun r o => normalizer Project r = Ok o) raws outs
    /\ assoc (output_file Project)
         (map (fun k =>
                 (output_file k,
                  VDict [ field (top_key k)
                            (VList match k with
                                   | Project => [ web_project_canonical ]
                                   | _ => []
                                   end) ]))
            ALL_KINDS)
       = Some (VDict [ field (top_key Project) (VList outs) ]).
Proof.
  apply (main_writes_normalized_records true web_export sound_disk).
  reflexivity.
Defined.

(** X13: one record that its normalizer raises on makes [main] raise
    without writing any file, whatever the other records and kinds are. *)
Theorem main_aborts_on_bad_record (fs : string -> export_file) (io : disk)
    (k : kind) (raws : list value) (r : value) (e : exn) :
  raw_records fs k = Ok raws ->
  In r raws ->
  normalizer k r = Raise e ->
  exists e', Transform.main true fs io [] = ([], Raise e').
Proof.
  intros R Hin Hr.
  destruct (main_cases true fs io) as [[E _] | [(e' & E) | (lists & L & _)]].
  - discriminate E.
  - eauto.
  - exfalso.
    destruct (load_and_normalize_ok fs k (lists k) (L k)) as (raws' & R' & F).
    rewrite R in R'. apply ok_inj in R'. subst raws'.
    clear - F Hin Hr. induction F as [ | r0 o rs os H0 F IH]; [destruct Hin | ].
    destruct Hin as [-> | Hin]; [congruence | auto].
Qed.

Lemma main_aborts_on_bad_record_witness :
  exists e',
    Transform.main true
      (fun res => if String.eqb res "credentials"
                  then Json (VList [ VDict numeric_type_credential ])
                  else NoFile)
      sound_disk []
    = ([], Raise e').
Proof.
  apply (main_aborts_on_bad_record _ sound_disk Credential
           [ VDict numeric_type_credential ] (VDict numeric_type_credential)
           AttributeError).
  - reflexivity.
  - cbn. tauto.
  - reflexivity.
Defined.

(** X14: a kind whose export file does not exist is written as an empty
    list under its top-level key. *)
Theorem missing_export_written_empty (export_exists : bool)
    (fs : string -> export_file) (io : disk) (w : written) (k : kind) :
  fs (resource_of k) = NoFile ->
  Transform.main export_exists fs io [] = (w, Ok 0%Z) ->
  assoc (output_file k) w = Some (VDict [ field (top_key k) (VList []) ]).
Proof.
  intros N H.
  destruct (main_cases export_exists fs io)
    as [[_ E] | [(e & E) | (lists & L & [E | (n & e & _ & E)])]];
    rewrite E in H; try discriminate H.
  injection H as <-.
  assert (Lk : lists k = []).
  { specialize (L k). unfold load_and_normalize, _load_json in L.
    rewrite N in L. cbn in L. now apply ok_inj in L. }
  destruct k; cbn; rewrite <- Lk; reflexivity.
Qed.

Lemma missing_export_written_empty_witness :
  assoc (output_file Inventory)
    (map (fun k => (output_file k, VDict [ field (top_key k) (VList []) ]))
       ALL_KINDS)
  = Some (VDict [ field (top_key Inventory) (VList []) ]).
Proof.
  apply (missing_export_written_empty true (fun _ => NoFile) sound_disk);
    reflexivity.
Defined.

(** ** The verifier: one document *)

Lemma validate_top_level_dict (d : dict) (key : string) :
  validate_top_level (VDict d) key
  = Ok (match dict_lookup (KStr key) d with
        | None => (false, "Missing top-level key '" ++ key ++ "'.")
        | Some (VList _) => (true, "")
        | Some _ => (false, "Top-level key '" ++ key ++ "' must be a list.")
        end).
Proof.
  unfold validate_top_level, py_contains, py_getitem. cbn [to_key bind].
  destruct (dict_lookup (KStr key) d) as [v | ]; cbn [negb bind];
    [ | reflexivity].
  destruct v; reflexivity.
Qed.

Lemma validate_top_level_not_dict (data : value) (key : string) :
  isinstance_dict data = false ->
  validate_top_level data key = Raise TypeError
  \/ validate_top_level data key
     = Ok (false, "Missing top-level key '" ++ key ++ "'.").
Proof.
  intros D. unfold validate_top_level.
  destruct data as [ | | | | s | l | d]; try discriminate D; auto;
    cbn [py_contains bind].
  - destruct (is_substring key s); cbn [negb]; auto.
  - destruct (existsb _ l); cbn [negb]; auto.
Qed.

(** X15: [validate_top_level] accepts a document exactly when it is a
    mapping that holds a list under the expected key.  On a mapping it
    always returns; on anything else it either reports the key missing or
    raises [TypeError]. *)
Theorem top_level_accepted_iff (data : value) (key : string) :
  ((exists msg, validate_top_level data key = Ok (true, msg))
   <-> exists d l, data = VDict d /\ dict_lookup (KStr key) d = Some (VList l))
  /\ match data with
     | VDict _ => exists ok msg, validate_top_level data key = Ok (ok, msg)
     | _ =>
         validate_top_level data key = Raise TypeError
         \/ validate_top_level data key
            = Ok (false, "Missing top-level key '" ++ key ++ "'.")
     end.
Proof.
  split.
  - split.
    + intros (msg & H).
      destruct (isinstance_dict data) eqn:D.
      * destruct data as [ | | | | | | d]; try discriminate D.
        rewrite validate_top_level_dict in H. exists d.
        destruct (dict_lookup (KStr key) d) as [v | ]; [ | discriminate H].
        destruct v; try discriminate H. eauto.
      * destruct (validate_top_level_not_dict data key D) as [E | E];
          rewrite E in H; discriminate H.
    + intros (d & l & -> & L). rewrite validate_top_level_dict, L. eauto.
  - destruct data as [ | | | | s | l | d];
      try (apply validate_top_level_not_dict; reflexivity).
    rewrite validate_top_level_dict.
    destruct (dict_lookup (KStr key) d) as [v | ]; [destruct v | ]; eauto.
Qed.

(** ** The verifier: the loop over the expected files *)

Lemma check_file_cases (base : string) (fs : string -> file_state)
    (r : report) (e : string * string) :
  match check_file base fs r e with
  | Ok r' =>
      warnings r'
      = List.app (warnings r)
          (if is_absent (fs (fst e))
           then ["Missing expected file: " ++ path_join base (fst e)]
           else [])
      /\ (is_absent (fs (fst e)) = true -> errors r' = errors r)
  | Raise x =>
      x = TypeError /\ mapping_or_missing (fs (fst e)) = false
  end.
Proof.
  destruct e as [fname topkey]. unfold check_file. cbn [fst].
  destruct (fs fname) as [ | err | doc]; cbn [is_absent mapping_or_missing].
  - split; reflexivity.
  - cbn [warnings]. rewrite app_nil_r. split; [reflexivity | discriminate].
  - destruct (isinstance_dict (load_yaml doc)) eqn:D.
    + destruct (load_yaml doc) as [ | | | | | | d]; try discriminate D.
      rewrite validate_top_level_dict. cbn [bind].
      destruct (dict_lookup (KStr topkey) d) as [v | ] eqn:L;
        [ | cbn; rewrite app_nil_r; split; [reflexivity | discriminate]].
      destruct v;
        try (cbn; rewrite app_nil_r; split; [reflexivity | discriminate]).
      cbn [negb py_get dict_get to_key bind]. rewrite L.
      unfold validate_list_items. cbn [py_iter bind warnings].
      rewrite app_nil_r. split; [reflexivity | discriminate].
    + destruct (validate_top_level_not_dict (load_yaml doc) topkey D)
        as [E | E]; rewrite E; cbn [bind negb warnings].
      * split; reflexivity.
      * rewrite app_nil_r. split; [reflexivity | discriminate].
Qed.

Lemma check_file_scalar (base : string) (fs : string -> file_state)
    (r : report) (e : string * string) :
  scalar_document (fs (fst e)) = true ->
  check_file base fs r e = Raise TypeError.
Proof.
  destruct e as [fname topkey]. unfold check_file. cbn [fst].
  destruct (fs fname) as [ | err | doc]; cbn [scalar_document];
    try discriminate.
  destruct doc as [ | [ | ] | z | f | | | ]; try discriminate;
    unfold load_yaml, py_or; cbn [truthy].
  - reflexivity.
  - intros ->. reflexivity.
  - destruct f; try discriminate; reflexivity.
Qed.

Lemma check_files_raise (base : string) (fs : string -> file_state)
    (e : string * string) (entries : list (string * string)) :
  (forall r, check_file base fs r e = Raise TypeError) ->
  In e entries ->
  forall r, check_files base fs r entries = Raise TypeError.
Proof.
  intros He. induction entries as [ | e0 rest IH]; intros Hin r;
    [destruct Hin | ].
  cbn [check_files]. destruct Hin as [-> | Hin].
  - now rewrite He.
  - pose proof (check_file_cases base fs r e0) as C.
    destruct (check_file base fs r e0) as [r' | x]; cbn [bind].
    + now apply IH.
    + destruct C as [-> _]. reflexivity.
Qed.

(** X16: an expected file whose document is a bare non-zero number or
    [true] makes the verifier raise [TypeError] instead of reporting an
    error, in either mode and whatever the other files hold. *)
Theorem scalar_document_crashes (strict : bool) (base : string)
    (fs : string -> file_state) (e : string * string) :
  In e EXPECTED_FILES ->
  scalar_document (fs (fst e)) = true ->
  main strict base true fs = Raise TypeError.
Proof.
  intros Hin S. unfold main. cbn [negb].
  rewrite (check_files_raise base fs e EXPECTED_FILES); [reflexivity | | exact Hin].
  intros r. now apply check_file_scalar.
Qed.

Lemma scalar_document_crashes_witness :
  main false "_cac_25" true (fun _ => Document (VInt 42)) = Raise TypeError.
Proof.
  apply (scalar_document_crashes false "_cac_25" (fun _ => Document (VInt 42))
           ("controller_projects.yml", "controller_projects")).
  - cbn. tauto.
  - reflexivity.
Defined.

Lemma check_files_total (base : string) (fs : string -> file_state)
    (entries : list (string * string)) :
  (forall e, In e entries -> mapping_or_missing (fs (fst e)) = true) ->
  forall r, exists r', check_files base fs r entries = Ok r'.
Proof.
  induction entries as [ | e0 rest IH]; intros H r; cbn [check_files]; eauto.
  pose proof (check_file_cases base fs r e0) as C.
  destruct (check_file base fs r e0) as [r' | x]; cbn [bind].
  - apply IH. intros e Hin. apply H. now right.
  - destruct C as [_ C]. rewrite (H e0 (or_introl eq_refl)) in C.
    discriminate C.
Qed.

(** X17: when each expected file is absent, unreadable, empty, or holds a
    mapping, the verifier returns an exit code: it raises nothing. *)
Theorem mapping_documents_verified (strict : bool) (base : string)
    (base_exists : bool) (fs : string -> file_state) :
  (forall e, In e EXPECTED_FILES -> mapping_or_missing (fs (fst e)) = true) ->
  exists code, main strict base base_exists fs = Ok code.
Proof.
  intros H. unfold main. destruct base_exists; cbn [negb]; eauto.
  destruct (check_files_total base fs EXPECTED_FILES H (mkReport [] []))
    as (r & E).
  rewrite E. cbn [bind]. eauto.
Qed.

Lemma mapping_documents_verified_witness :
  exists code, main true "_cac_25" true empty_directory = Ok code.
Proof.
  apply (mapping_documents_verified true "_cac_25" true empty_directory).
  intros e _. reflexivity.
Defined.

Lemma check_files_warnings (base : string) (fs : string -> file_state)
    (entries : list (string * string)) (r r' : report) :
  check_files base fs r entries = Ok r' ->
  warnings r'
  = List.app (warnings r)
      (map (fun e => "Missing expected file: " ++ path_join base (fst e))
         (filter (fun e => is_absent (fs (fst e))) entries))
  /\ ((forall e, In e entries -> is_absent (fs (fst e)) = true) ->
      errors r' = errors r).
Proof.
  revert r. induction entries as [ | e0 rest IH]; intros r; cbn [check_files].
  - intros H. apply ok_inj in H. subst. cbn. rewrite app_nil_r. auto.
  - pose proof (check_file_cases base fs r e0) as C.
    destruct (check_file base fs r e0) as [r1 | x]; cbn [bind];
      [ | discriminate].
    destruct C as [W E]. intros H. destruct (IH r1 H) as [W' E'].
    split.
    + rewrite W', W. cbn [filter].
      destruct (is_absent (fs (fst e0))); cbn [map];
        now rewrite <- app_assoc.
    + intros A. rewrite E'; [ | intros e Hin; apply A; now right].
      apply E, A. now left.
Qed.

(** X18: when the verifier's loop ends, it has one warning per absent
    expected file, in the order of the expected files, and nothing else
    among the warnings; and a directory with no expected file at all has
    no error. *)
Theorem one_warning_per_absent_file (base : string)
    (fs : string -> file_state) (r : report) :
  check_files base fs (mkReport [] []) EXPECTED_FILES = Ok r ->
  warnings r
  = map (fun e => "Missing expected file: " ++ path_join base (fst e))
      (filter (fun e => is_absent (fs (fst e))) EXPECTED_FILES)
  /\ ((forall e, In e EXPECTED_FILES -> is_absent (fs (fst e)) = true) ->
      errors r = []).
Proof.
  intros H. apply check_files_warnings in H. exact H.
Qed.

Lemma one_warning_per_absent_file_witness :
  warnings (mkReport
              (map (fun e => "Missing expected file: "
                             ++ path_join "_cac_25" (fst e))
                 EXPECTED_FILES) [])
  = map (fun e => "Missing expected file: " ++ path_join "_cac_25" (fst e))
      (filter (fun e => is_absent (empty_directory (fst e))) EXPECTED_FILES)
  /\ ((forall e, In e EXPECTED_FILES ->
         is_absent (empty_directory (fst e)) = true) ->
      errors (mkReport
                (map (fun e => "Missing expected file: "
                               ++ path_join "_cac_25" (fst e))
                   EXPECTED_FILES) [])
      = []).
Proof.
  apply (one_warning_per_absent_file "_cac_25" empty_directory).
  reflexivity.
Defined.

(** At [--path .] the warnings name the files without a directory part, as
    [pathlib] renders them. *)
Lemma current_directory_warning :
  exists r,
    check_files "." empty_directory (mkReport [] []) EXPECTED_FILES = Ok r
    /\ hd "" (warnings r)
       = "Missing expected file: controller_organizations.yml".
Proof. eexists. split; reflexivity. Qed.

(** ** The verifier: exit status *)

(** X19: the exit status is 0, 1 or 2; it is 2 exactly when the directory
    does not exist or an error was recorded; and strict mode changes the
    status of a run only from 0 to 1. *)
Theorem exit_status_cases (base : string) (base_exists : bool)
    (fs : string -> file_state) (code : Z) :
  main true base base_exists fs = Ok code ->
  (code = 0 \/ code = 1 \/ code = 2)%Z
  /\ main false base base_exists fs
     = Ok (if (code =? 1)%Z then 0%Z else code)
  /\ (code = 2%Z
      <-> base_exists = false
          \/ exists r,
               check_files base fs (mkReport [] []) EXPECTED_FILES = Ok r
               /\ errors r <> []).
Proof.
  unfold main. destruct base_exists; cbn [negb].
  - destruct (check_files base fs (mkReport [] []) EXPECTED_FILES)
      as [r | e]; cbn [bind]; [ | discriminate].
    intros H. apply ok_inj in H. subst code. unfold exit_status.
    destruct (errors r) as [ | x xs] eqn:E.
    + destruct (warnings r); cbn; (split; [auto | split; [reflexivity | ]]);
        (split; [discriminate | ]);
        intros [D | (r' & R & N)]; try discriminate D;
        apply ok_inj in R; subst r'; congruence.
    + cbn. split; [auto | split; [reflexivity | ]].
      split; [ | reflexivity]. intros _. right. exists r. split; [reflexivity | ].
      rewrite E. discriminate.
  - intros H. apply ok_inj in H. subst code. cbn.
    split; [auto | split; [reflexivity | ]]. split; auto.
Qed.

Lemma exit_status_cases_witness :
  (1 = 0 \/ 1 = 1 \/ 1 = 2)%Z
  /\ main false "_cac_25" true empty_directory
     = Ok (if (1 =? 1)%Z then 0%Z else 1%Z)
  /\ (1%Z = 2%Z
      <-> true = false
          \/ exists r,
               check_files "_cac_25" empty_directory (mkReport [] [])
                 EXPECTED_FILES = Ok r
               /\ errors r <> []).
Proof.
  apply (exit_status_cases "_cac_25" true empty_directory 1%Z).
  reflexivity.
Defined.

(** ** The verifier: list items *)

Lemma filter_nil_iff {A : Type} (P : A -> bool) (l : list A) :
  filter P l = [] <-> forallb (fun a => negb (P a)) l = true.
Proof.
  induction l as [ | a l IH]; cbn; [tauto | ].
  destruct (P a); cbn; [split; discriminate | exact IH].
Qed.

Lemma item_errors_nil (kind : string) (required : list string) (idx : nat)
    (obj : value) :
  item_errors kind required idx obj = [] <-> item_conforms required obj = true.
Proof.
  destruct obj as [ | | | | | | d]; cbn [item_errors item_conforms];
    try (split; discriminate).
  rewrite andb_true_iff, negb_true_iff, <- filter_nil_iff. split.
  - intros H. apply app_eq_nil in H. destruct H as [H1 H2].
    apply map_eq_nil in H1. split; [exact H1 | ].
    destruct (state_not_string d); [discriminate H2 | reflexivity].
  - intros [H1 H2]. now rewrite H1, H2.
Qed.

Lemma items_errors_nil (kind : string) (required : list string) (idx : nat)
    (items : list value) :
  items_errors kind required idx items = []
  <-> forallb (item_conforms required) items = true.
Proof.
  revert idx. induction items as [ | obj rest IH]; intros idx; cbn;
    [tauto | ].
  rewrite andb_true_iff, <- (IH (S idx)), <- (item_errors_nil kind required idx).
  split.
  - apply app_eq_nil.
  - intros [-> ->]. reflexivity.
Qed.

Lemma items_errors_app (kind : string) (required : list string) (idx : nat)
    (l1 l2 : list value) :
  items_errors kind required idx (List.app l1 l2)
  = List.app (items_errors kind required idx l1)
      (items_errors kind required (idx + List.length l1) l2).
Proof.
  revert idx. induction l1 as [ | obj l1 IH]; intros idx; cbn.
  - now rewrite Nat.add_0_r.
  - rewrite IH, <- app_assoc. do 3 f_equal. lia.
Qed.

Lemma validate_list_items_list (kind : string) (items : list value) :
  validate_list_items kind (VList items)
  = Ok (items_errors kind (required_fields kind) 0 items).
Proof. reflexivity. Qed.

(** X20: on a list, [validate_list_items] reports no error exactly when
    every item is a mapping in which each required field of the kind is
    present and neither null nor the empty string, and [state] is absent
    or a string. *)
Theorem no_item_error_iff (kind : string) (items : list value) :
  validate_list_items kind (VList items) = Ok []
  <-> forallb (item_conforms (required_fields kind)) items = true.
Proof.
  rewrite validate_list_items_list, <- (items_errors_nil kind _ 0). split.
  - apply ok_inj.
  - now intros ->.
Qed.

Lemma required_fields_name (kind : string) :
  exists rest, required_fields kind = "name" :: rest /\ ~ In "name" rest.
Proof.
  unfold required_fields, REQUIRED_FIELDS_PER_LIST_ITEM. cbn [assoc].
  repeat match goal with
         | |- context [if String.eqb ?a kind then _ else _] =>
             destruct (String.eqb a kind)
         end;
    eexists; (split; [reflexivity | ]); cbn; intuition discriminate.
Qed.

(** X21: a list whose items all conform but one, a mapping that lacks
    [name] (or holds it null or empty) and is otherwise in order, yields
    exactly one error, which names the index of that item and the field
    [name]. *)
Theorem one_error_for_missing_name (kind : string) (pre post : list value)
    (d : dict) :
  forallb (item_conforms (required_fields kind)) pre = true ->
  forallb (item_conforms (required_fields kind)) post = true ->
  field_missing d "name" = true ->
  (forall f, In f (required_fields kind) -> f <> "name" ->
             field_missing d f = false) ->
  state_not_string d = false ->
  validate_list_items kind (VList (List.app pre (VDict d :: post)))
  = Ok [ item_prefix kind (List.length pre)
         ++ " missing required field 'name'." ].
Proof.
  intros Hpre Hpost Hn Hother Hs.
  rewrite validate_list_items_list, items_errors_app.
  apply (items_errors_nil kind _ 0) in Hpre. rewrite Hpre.
  cbn [List.app items_errors Nat.add].
  apply (items_errors_nil kind _ (S (List.length pre))) in Hpost.
  rewrite Hpost, app_nil_r.
  destruct (required_fields_name kind) as (rest & E & Nin).
  cbn [item_errors]. rewrite Hs, app_nil_r. rewrite E in *.
  cbn [filter]. rewrite Hn.
  assert (F : filter (field_missing d) rest = []).
  { apply filter_nil_iff, forallb_forall. intros f Hf.
    rewrite Hother; [reflexivity | now right | ].
    intros ->. contradiction. }
  rewrite F. reflexivity.
Qed.

Lemma one_error_for_missing_name_witness :
  validate_list_items "controller_organizations"
    (VList (List.app [named_item] (VDict nameless_item :: [named_item])))
  = Ok [ item_prefix "controller_organizations" (List.length [named_item])
         ++ " missing required field 'name'." ].
Proof.
  apply (one_error_for_missing_name "controller_organizations"
           [named_item] [named_item] nameless_item).
  - reflexivity.
  - reflexivity.
  - reflexivity.
  - intros f [<- | []] N. now contradiction N.
  - reflexivity.
Defined.

(** ** The verifier on what the normalizers return *)

Lemma normalized_state (k : kind) (d : dict) (out : value) :
  normalizer k (VDict d) = Ok out ->
  exists p, out = VDict p
            /\ dict_lookup (KStr "state") p = Some (VStr "present").
Proof.
  intros H.
  by_payload H; eexists; (split; [reflexivity | ]);
    try (rewrite lookup_prune by reflexivity); payload_lookup; reflexivity.
Qed.

Lemma truthy_not_blank (v : value) :
  truthy v = true -> py_in v [VNone; VStr ""] = false.
Proof.
  destruct v as [ | | | | s | | ]; cbn; try discriminate; try reflexivity.
  intros H. apply negb_true_iff in H. now rewrite H.
Qed.

(** X22: on a record a normalizer returned, the verifier can only report
    required fields as missing: never that the item is not a mapping, never
    that [state] is not a string; and on a job template it never reports
    [job_type] missing. *)
Theorem normalized_item_errors (k : kind) (r out : value) (kind : string)
    (required : list string) (idx : nat) :
  normalizer k r = Ok out ->
  item_errors kind required idx out
  = map (fun fld => item_prefix kind idx ++ " missing required field '"
                    ++ fld ++ "'.")
      (filter (field_missing (items_of out)) required)
  /\ (k = JobTemplate -> field_missing (items_of out) "job_type" = false).
Proof.
  intros H. destruct (normalizer_ok_dict k r out H) as [d ->]. split.
  - destruct (normalized_state k d out H) as (p & -> & S).
    cbn [item_errors items_of]. unfold state_not_string. rewrite S.
    cbn [isinstance_str negb]. apply app_nil_r.
  - intros ->. apply normalizer_payload in H.
    destruct H as (items & _ & ->). cbn [items_of]. unfold field_missing.
    rewrite lookup_prune by reflexivity. payload_lookup.
    assert (T : truthy (py_or (dget d "job_type") (VStr "run")) = true).
    { unfold py_or. destruct (truthy (dget d "job_type")) eqn:T;
        [exact T | reflexivity]. }
    rewrite (truthy_not_empty _ T). now apply truthy_not_blank.
Qed.

Lemma normalized_item_errors_witness :
  item_errors "controller_templates" ["name"; "project"; "job_type"] 0
    padded_job_template_canonical
  = map (fun fld => item_prefix "controller_templates" 0
                    ++ " missing required field '" ++ fld ++ "'.")
      (filter (field_missing (items_of padded_job_template_canonical))
         ["name"; "project"; "job_type"])
  /\ (JobTemplate = JobTemplate ->
      field_missing (items_of padded_job_template_canonical) "job_type"
      = false).
Proof.
  apply (normalized_item_errors JobTemplate padded_job_template).
  reflexivity.
Defined.

Lemma all_space_lstrip (s : string) : all_space s = true -> lstrip s = "".
Proof.
  induction s as [ | c s IH]; cbn; [reflexivity | ].
  destruct (isspace c); cbn; [exact IH | discriminate].
Qed.

Lemma all_space_strip (s : string) : all_space s = true -> strip s = "".
Proof. intros H. unfold strip. now rewrite (all_space_lstrip s H). Qed.

(** X23: a raw record whose name is absent, null, or a string of whitespace
    only normalizes to a record on which the verifier reports [name]
    missing. *)
Theorem blank_name_reported (k : kind) (d : dict) (out : value) :
  normalizer k (VDict d) = Ok out ->
  dget d "name" = VNone
  \/ (exists s, dget d "name" = VStr s /\ all_space s = true) ->
  field_missing (items_of out) "name" = true.
Proof.
  intros H N.
  assert (E : stripped_of (dget d "name") = VNone
              \/ stripped_of (dget d "name") = VStr "").
  { destruct N as [-> | (s & -> & A)]; [now left | right].
    cbn. now rewrite (all_space_strip s A). }
  by_payload H; cbn [items_of]; unfold field_missing;
    try (rewrite lookup_prune by reflexivity); payload_lookup;
    destruct E as [-> | ->]; reflexivity.
Qed.

Lemma blank_name_reported_witness :
  field_missing
    (items_of (VDict [ field "name" (VStr ""); field "description" (VStr "");
                       field "state" (VStr "present") ]))
    "name" = true.
Proof.
  apply (blank_name_reported WorkflowTemplate blank_name_workflow).
  - reflexivity.
  - right. exists "  ". split; reflexivity.
Defined.

(** ** From the export to the verdict *)

(** X24: when [main] of the transformation returns 0 and the verifier reads
    back the seven documents as they were written, the verifier raises
    nothing and has no warning; it exits with 0 when no record lacks a
    required field and with 2 otherwise, in strict mode as in the default
    mode. *)
Theorem verifier_on_written_files (export_exists : bool)
    (fs : string -> export_file) (io : disk) (w : written) (strict : bool)
    (base : string) :
  Transform.main export_exists fs io [] = (w, Ok 0%Z) ->
  exists r,
    check_files base (written_directory w) (mkReport [] []) EXPECTED_FILES
    = Ok r
    /\ warnings r = []
    /\ main strict base true (written_directory w)
       = Ok (match errors r with [] => 0%Z | _ => 2%Z end).
Proof.
  intros H.
  destruct (main_cases export_exists fs io)
    as [[_ E] | [(e & E) | (lists & _ & [E | (n & e & _ & E)])]];
    rewrite E in H; try discriminate H.
  injection H as <-.
  match goal with
  | |- context [written_directory ?w0] => set (dir := written_directory w0)
  end.
  assert (C : exists errs,
             check_files base dir (mkReport [] []) EXPECTED_FILES
             = Ok (mkReport [] errs))
    by (eexists; reflexivity).
  destruct C as (errs & C).
  exists (mkReport [] errs). split; [exact C | ]. split; [reflexivity | ].
  unfold main. cbn [negb]. rewrite C. cbn [bind].
  unfold exit_status. cbn [errors warnings]. destruct errs; reflexivity.
Qed.

Lemma verifier_on_written_files_witness :
  exists r,
    check_files "_cac_25"
      (written_directory
         (map (fun k =>
                 (output_file k,
                  VDict [ field (top_key k)
                            (VList match k with
                                   | Project => [ web_project_canonical ]
                                   | _ => []
                                   end) ]))
            ALL_KINDS))
      (mkReport [] []) EXPECTED_FILES
    = Ok r
    /\ warnings r = []
    /\ main true "_cac_25" true
         (written_directory
            (map (fun k =>
                    (output_file k,
                     VDict [ field (top_key k)
                               (VList match k with
                                      | Project => [ web_project_canonical ]
                                      | _ => []
                                      end) ]))
               ALL_KINDS))
       = Ok (match errors r with [] => 0%Z | _ => 2%Z end).
Proof.
  apply (verifier_on_written_files true web_export sound_disk).
  reflexivity.
Defined.
